(** * Dual-mode generic thermostat

    A shallow embedding of the control logic of
    [custom_components/dualmode_generic/climate.py]
    (class [DualModeGenericThermostat]) and the properties of its control
    loop, mode switching, presets, sensor handling and construction.

    Conventions of the embedding.
    - Python floats are the kernel's binary64 floats ([PrimFloat.float]);
      a literal such as [20.6] denotes the same binary64 value in both.
    - [None] is [option]'s [None]; entity ids are [option string].
    - [self] is the record [Thermostat]; methods are computations in the
      monad [M], which threads [self], collects the issued commands and
      stops at the first raised exception (keeping the mutations made so
      far, as Python does).
    - [hass] (the state machine of Home Assistant) is read-only during one
      handler: service calls are fire-and-forget and only recorded.
    - Logging calls and [async_write_ha_state] are left out, except where
      evaluating a logging argument can raise. *)

From Stdlib Require Import Floats ZArith String Ascii List Bool Lia Uint63.
Import ListNotations.
Set Warnings "-inexact-float".
Local Open Scope string_scope.
Local Open Scope list_scope.

(** ** Python values *)

Module Py.

(** [a >= b] on floats. *)
Definition ge (a b : float) : bool := PrimFloat.leb b a.

(** Truth value of a float: every float but zero is true. *)
Definition float_truthy (x : float) : bool := negb (PrimFloat.eqb x 0%float).

(** Truth value of [x] when [x] is a float or [None]. *)
Definition opt_float_truthy (x : option float) : bool :=
  match x with
  | Some f => float_truthy f
  | None => false
  end.

(** [a or b] for floats-or-[None]. *)
Definition or_ (a b : option float) : option float :=
  if opt_float_truthy a then a else b.

(** Truth value of a string-or-[None]. *)
Definition opt_str_truthy (x : option string) : bool :=
  match x with
  | Some s => negb (String.eqb s "")
  | None => false
  end.

(** Truth value of a [timedelta]-or-[None] (durations in microseconds). *)
Definition opt_duration_truthy (x : option Z) : bool :=
  match x with
  | Some d => negb (Z.eqb d 0)
  | None => false
  end.

Definition is_none {A : Type} (x : option A) : bool :=
  match x with
  | Some _ => false
  | None => true
  end.

(** [l.remove(x)]: drops the first occurrence, raises [ValueError]
    ([None] here) when there is none. *)
Fixpoint list_remove {A : Type} (eqb : A -> A -> bool) (x : A) (l : list A)
  : option (list A) :=
  match l with
  | [] => None
  | y :: l' =>
      if eqb y x then Some l'
      else match list_remove eqb x l' with
           | Some r => Some (y :: r)
           | None => None
           end
  end.

(** [l.count(x)]. *)
Definition list_count {A : Type} (eqb : A -> A -> bool) (x : A) (l : list A) : nat :=
  List.length (List.filter (fun y => eqb y x) l).

(** The exceptions this module can raise. *)
Inductive exn : Type :=
| UnboundLocalError (name : string)
| TypeError
| ValueError.

End Py.

(** ** Constants of the platform and of the module *)

(** The mode constants of [homeassistant.components.climate.const]; a mode
    is a string ([self._hvac_mode] can also be [None], or any string
    restored from an old state). *)
Definition HVAC_MODE_OFF : string := "off".
Definition HVAC_MODE_HEAT : string := "heat".
Definition HVAC_MODE_COOL : string := "cool".
Definition HVAC_MODE_DRY : string := "dry".
Definition HVAC_MODE_FAN_ONLY : string := "fan_only".

Definition STATE_ON : string := "on".
Definition STATE_UNKNOWN : string := "unknown".
Definition STATE_UNAVAILABLE : string := "unavailable".

Definition PRESET_AWAY : string := "away".
Definition PRESET_NONE : string := "none".

Definition SUPPORT_TARGET_TEMPERATURE : Z := 1.
Definition SUPPORT_FAN_MODE : Z := 8.
Definition SUPPORT_PRESET_MODE : Z := 16.
Definition SUPPORT_FLAGS : Z := Z.lor SUPPORT_TARGET_TEMPERATURE SUPPORT_FAN_MODE.

(** [fan_behavior] and [dryer_behavior]: the schema admits exactly
    "cooler", "heater" and "neutral". *)
Inductive behavior : Type := Cooler | Heater | Neutral.

Definition behavior_eqb (a b : behavior) : bool :=
  match a, b with
  | Cooler, Cooler | Heater, Heater | Neutral, Neutral => true
  | _, _ => false
  end.

Definition FAN_MODE_COOL : behavior := Cooler.
Definition FAN_MODE_HEAT : behavior := Heater.
Definition FAN_MODE_NEUTRAL : behavior := Neutral.
Definition DRYER_MODE_COOL : behavior := Cooler.
Definition DRYER_MODE_HEAT : behavior := Heater.
Definition DRYER_MODE_NEUTRAL : behavior := Neutral.

Definition FAN_MODE_ON : string := "on".
Definition FAN_MODE_AUTO : string := "auto".

(** An element of the [reverse_cycle] list: a string, or the boolean (or
    integer) of a legacy configuration. *)
Inductive rc_item : Type :=
| RcStr (s : string)
| RcBool (b : bool)
| RcInt (z : Z).

(** Python's [==] between two such elements ([True == 1], [False == 0]). *)
Definition rc_eqb (a b : rc_item) : bool :=
  let num (x : rc_item) : option Z :=
    match x with
    | RcStr _ => None
    | RcBool true => Some 1%Z
    | RcBool false => Some 0%Z
    | RcInt z => Some z
    end in
  match a, b with
  | RcStr s, RcStr t => String.eqb s t
  | _, _ =>
      match num a, num b with
      | Some x, Some y => Z.eqb x y
      | _, _ => false
      end
  end.

Definition REVERSE_CYCLE_IS_HEATER : rc_item := RcStr "heater".
Definition REVERSE_CYCLE_IS_COOLER : rc_item := RcStr "cooler".
Definition REVERSE_CYCLE_IS_FAN : rc_item := RcStr "fan".
Definition REVERSE_CYCLE_IS_DRYER : rc_item := RcStr "dryer".

(** ** Home Assistant as seen from the thermostat *)

(** A state object: its [state] string and the time elapsed since
    [last_changed] (microseconds). *)
Record State : Type := mkState {
  state : string;
  since_last_changed : Z
}.

(** [hass.states.get]. *)
Record Hass : Type := mkHass {
  states_get : string -> option State
}.

(** [hass.states.is_state(entity_id, s)]. *)
Definition is_state (hass : Hass) (entity_id : string) (s : string) : bool :=
  match states_get hass entity_id with
  | Some st => String.eqb (state st) s
  | None => false
  end.

(** [condition.state(hass, entity, req_state, for_period)] of
    [homeassistant.helpers.condition]: the entity exists, is in
    [req_state], and has been for longer than [for_period]. *)
Definition condition_state (hass : Hass) (entity : option string)
    (req_state : string) (for_period : option Z) : bool :=
  match entity with
  | None => false
  | Some entity_id =>
      match states_get hass entity_id with
      | None => false
      | Some st =>
          let is_state := String.eqb (state st) req_state in
          match for_period with
          | None => is_state
          | Some d => if negb is_state then is_state
                      else Z.ltb d (since_last_changed st)
          end
      end
  end.

(** What a handler sends out. *)
Inductive service : Type := SERVICE_TURN_ON | SERVICE_TURN_OFF.

(** The coroutines handed to [asyncio.ensure_future]. *)
Inductive task : Type := Task_fan_on | Task_fan_off.

Inductive event : Type :=
| Call (s : service) (entity_id : string)
    (* hass.services.async_call(HA_DOMAIN, s, {ATTR_ENTITY_ID: entity_id}) *)
| EnsureFuture (t : task).
    (* asyncio.ensure_future(self.fan_on()) / (self.fan_off()) *)

(** ** The thermostat object *)

Record Thermostat : Type := mkThermostat {
  _name : string;
  heater_entity_id : option string;
  cooler_entity_id : option string;
  sensor_entity_id : string;
  fan_entity_id : option string;
  fan_behavior : behavior;
  dryer_entity_id : option string;
  dryer_behavior : behavior;
  _fan_mode : string;
  reverse_cycle : list rc_item;
  min_cycle_duration : option Z;
  _cold_tolerance : float;
  _hot_tolerance : float;
  _keep_alive : option Z;
  _hvac_mode : option string;
  _saved_target_temp : option float;
  _temp_precision : option float;
  _hvac_list : list string;
  _fan_mode_list : list string;
  _active : bool;
  _cur_temp : option float;
  _min_temp : option float;
  _max_temp : option float;
  _target_temp : option float;
  _unit : string;
  _support_flags : Z;
  _away_temp : option float;
  _is_away : bool
}.

Definition set_hvac_mode (v : option string) (t : Thermostat) : Thermostat :=
  mkThermostat (_name t) (heater_entity_id t) (cooler_entity_id t)
    (sensor_entity_id t) (fan_entity_id t) (fan_behavior t) (dryer_entity_id t)
    (dryer_behavior t) (_fan_mode t) (reverse_cycle t) (min_cycle_duration t)
    (_cold_tolerance t) (_hot_tolerance t) (_keep_alive t) v
    (_saved_target_temp t) (_temp_precision t) (_hvac_list t)
    (_fan_mode_list t) (_active t) (_cur_temp t) (_min_temp t) (_max_temp t)
    (_target_temp t) (_unit t) (_support_flags t) (_away_temp t) (_is_away t).

Definition set_saved_target_temp (v : option float) (t : Thermostat) : Thermostat :=
  mkThermostat (_name t) (heater_entity_id t) (cooler_entity_id t)
    (sensor_entity_id t) (fan_entity_id t) (fan_behavior t) (dryer_entity_id t)
    (dryer_behavior t) (_fan_mode t) (reverse_cycle t) (min_cycle_duration t)
    (_cold_tolerance t) (_hot_tolerance t) (_keep_alive t) (_hvac_mode t)
    v (_temp_precision t) (_hvac_list t)
    (_fan_mode_list t) (_active t) (_cur_temp t) (_min_temp t) (_max_temp t)
    (_target_temp t) (_unit t) (_support_flags t) (_away_temp t) (_is_away t).

Definition set_active (v : bool) (t : Thermostat) : Thermostat :=
  mkThermostat (_name t) (heater_entity_id t) (cooler_entity_id t)
    (sensor_entity_id t) (fan_entity_id t) (fan_behavior t) (dryer_entity_id t)
    (dryer_behavior t) (_fan_mode t) (reverse_cycle t) (min_cycle_duration t)
    (_cold_tolerance t) (_hot_tolerance t) (_keep_alive t) (_hvac_mode t)
    (_saved_target_temp t) (_temp_precision t) (_hvac_list t)
    (_fan_mode_list t) v (_cur_temp t) (_min_temp t) (_max_temp t)
    (_target_temp t) (_unit t) (_support_flags t) (_away_temp t) (_is_away t).

Definition set_cur_temp (v : option float) (t : Thermostat) : Thermostat :=
  mkThermostat (_name t) (heater_entity_id t) (cooler_entity_id t)
    (sensor_entity_id t) (fan_entity_id t) (fan_behavior t) (dryer_entity_id t)
    (dryer_behavior t) (_fan_mode t) (reverse_cycle t) (min_cycle_duration t)
    (_cold_tolerance t) (_hot_tolerance t) (_keep_alive t) (_hvac_mode t)
    (_saved_target_temp t) (_temp_precision t) (_hvac_list t)
    (_fan_mode_list t) (_active t) v (_min_temp t) (_max_temp t)
    (_target_temp t) (_unit t) (_support_flags t) (_away_temp t) (_is_away t).

Definition set_target_temp (v : option float) (t : Thermostat) : Thermostat :=
  mkThermostat (_name t) (heater_entity_id t) (cooler_entity_id t)
    (sensor_entity_id t) (fan_entity_id t) (fan_behavior t) (dryer_entity_id t)
    (dryer_behavior t) (_fan_mode t) (reverse_cycle t) (min_cycle_duration t)
    (_cold_tolerance t) (_hot_tolerance t) (_keep_alive t) (_hvac_mode t)
    (_saved_target_temp t) (_temp_precision t) (_hvac_list t)
    (_fan_mode_list t) (_active t) (_cur_temp t) (_min_temp t) (_max_temp t)
    v (_unit t) (_support_flags t) (_away_temp t) (_is_away t).

Definition set_is_away (v : bool) (t : Thermostat) : Thermostat :=
  mkThermostat (_name t) (heater_entity_id t) (cooler_entity_id t)
    (sensor_entity_id t) (fan_entity_id t) (fan_behavior t) (dryer_entity_id t)
    (dryer_behavior t) (_fan_mode t) (reverse_cycle t) (min_cycle_duration t)
    (_cold_tolerance t) (_hot_tolerance t) (_keep_alive t) (_hvac_mode t)
    (_saved_target_temp t) (_temp_precision t) (_hvac_list t)
    (_fan_mode_list t) (_active t) (_cur_temp t) (_min_temp t) (_max_temp t)
    (_target_temp t) (_unit t) (_support_flags t) (_away_temp t) v.

Definition set_reverse_cycle (v : list rc_item) (t : Thermostat) : Thermostat :=
  mkThermostat (_name t) (heater_entity_id t) (cooler_entity_id t)
    (sensor_entity_id t) (fan_entity_id t) (fan_behavior t) (dryer_entity_id t)
    (dryer_behavior t) (_fan_mode t) v (min_cycle_duration t)
    (_cold_tolerance t) (_hot_tolerance t) (_keep_alive t) (_hvac_mode t)
    (_saved_target_temp t) (_temp_precision t) (_hvac_list t)
    (_fan_mode_list t) (_active t) (_cur_temp t) (_min_temp t) (_max_temp t)
    (_target_temp t) (_unit t) (_support_flags t) (_away_temp t) (_is_away t).

(** [self._hvac_mode == m]. *)
Definition mode_is (t : Thermostat) (m : string) : bool :=
  match _hvac_mode t with
  | Some m' => String.eqb m' m
  | None => false
  end.

(** ** The monad of a handler: [self], the commands sent, exceptions *)

Inductive outcome (A : Type) : Type :=
| Normal (a : A)
| Raised (e : Py.exn).
Arguments Normal {A} a.
Arguments Raised {A} e.

Definition M (A : Type) : Type :=
  Thermostat -> outcome A * Thermostat * list event.

Definition ret {A : Type} (a : A) : M A := fun self => (Normal a, self, []).

Definition bind {A B : Type} (c : M A) (k : A -> M B) : M B :=
  fun self =>
    match c self with
    | (Normal a, self1, tr1) =>
        match k a self1 with
        | (r, self2, tr2) => (r, self2, tr1 ++ tr2)
        end
    | (Raised e, self1, tr1) => (Raised e, self1, tr1)
    end.

Definition get : M Thermostat := fun self => (Normal self, self, []).
Definition modify (f : Thermostat -> Thermostat) : M unit :=
  fun self => (Normal tt, f self, []).
Definition emit (e : event) : M unit := fun self => (Normal tt, self, [e]).
Definition raise {A : Type} (e : Py.exn) : M A := fun self => (Raised e, self, []).

Declare Scope py_scope.
Delimit Scope py_scope with py.
Notation "x <- c ;; k" := (bind c (fun x => k))
  (at level 61, c at next level, right associativity) : py_scope.
Notation "c ;; k" := (bind c (fun _ => k))
  (at level 61, right associativity) : py_scope.
Local Open Scope py_scope.

(** [if c: body] with no [else]. *)
Definition when (c : bool) (body : M unit) : M unit :=
  if c then body else ret tt.

(** Projections of a run. *)
Definition result_of {A : Type} (r : outcome A * Thermostat * list event) : outcome A :=
  fst (fst r).
Definition self_of {A : Type} (r : outcome A * Thermostat * list event) : Thermostat :=
  snd (fst r).
Definition trace_of {A : Type} (r : outcome A * Thermostat * list event) : list event :=
  snd r.

(** A local variable of a Python function: unbound ([None]) until the
    first assignment; reading it unbound raises [UnboundLocalError]. *)
Definition local (A : Type) : Type := option A.

Definition read_local {A : Type} (name : string) (v : local A) : M A :=
  match v with
  | Some a => ret a
  | None => raise (Py.UnboundLocalError name)
  end.

(** [a + b] where [a] may be [None] ([None + float] is a [TypeError]). *)
Definition add_opt (a : option float) (b : float) : M float :=
  match a with
  | Some x => ret (PrimFloat.add x b)
  | None => raise Py.TypeError
  end.

(** [a >= b] where [a] may be [None]. *)
Definition ge_opt (a : option float) (b : float) : M bool :=
  match a with
  | Some x => ret (Py.ge x b)
  | None => raise Py.TypeError
  end.

(** How a block inside a function ends: control goes on with the value
    [a], or the function has executed [return]. *)
Inductive flow (A : Type) : Type :=
| Proceed (a : A)
| Returned.
Arguments Proceed {A} a.
Arguments Returned {A}.

(** [str.lower] on the ASCII letters. Bytes outside A-Z are kept, so the
    result is "on" or "auto" exactly when Python's is: no other character
    lowers to one of the letters of these two words. *)
Definition lower_ascii (a : ascii) : ascii :=
  let n := nat_of_ascii a in
  if Nat.leb 65 n && Nat.leb n 90 then ascii_of_nat (n + 32) else a.

Fixpoint py_lower (s : string) : string :=
  match s with
  | EmptyString => EmptyString
  | String a s' => String (lower_ascii a) (py_lower s')
  end.

Definition set_fan_mode (v : string) (t : Thermostat) : Thermostat :=
  mkThermostat (_name t) (heater_entity_id t) (cooler_entity_id t)
    (sensor_entity_id t) (fan_entity_id t) (fan_behavior t) (dryer_entity_id t)
    (dryer_behavior t) v (reverse_cycle t) (min_cycle_duration t)
    (_cold_tolerance t) (_hot_tolerance t) (_keep_alive t) (_hvac_mode t)
    (_saved_target_temp t) (_temp_precision t) (_hvac_list t)
    (_fan_mode_list t) (_active t) (_cur_temp t) (_min_temp t) (_max_temp t)
    (_target_temp t) (_unit t) (_support_flags t) (_away_temp t) (_is_away t).

(** The [CURRENT_HVAC_*] constants of the climate platform. *)
Definition CURRENT_HVAC_OFF : string := "off".
Definition CURRENT_HVAC_HEAT : string := "heating".
Definition CURRENT_HVAC_COOL : string := "cooling".
Definition CURRENT_HVAC_DRY : string := "drying".
Definition CURRENT_HVAC_IDLE : string := "idle".
Definition CURRENT_HVAC_FAN : string := "fan".

(** ** The methods of [DualModeGenericThermostat] *)

Section Handlers.

Variable hass : Hass.

(** Python's built-in [float] on a string: the value, or [None] where
    it raises [ValueError]. *)
Variable py_float : string -> option float.

(** [ClimateEntity.min_temp] and [ClimateEntity.max_temp], the defaults
    of the base class. *)
Variable super_min_temp super_max_temp : float.

(** [_is_device_active] (property): cooler, heater or dryer is "on";
    the fan does not count. *)
Definition _is_device_active (self : Thermostat) : bool :=
  let truthy_id (x : option string) : list string :=
    match x with
    | Some s => if Py.opt_str_truthy x then [s] else []
    | None => []
    end in
  let devices :=
    [] ++ truthy_id (cooler_entity_id self)
       ++ truthy_id (heater_entity_id self)
       ++ truthy_id (dryer_entity_id self) in
  let device_states := List.map (fun dev => is_state hass dev STATE_ON) devices in
  match List.filter (fun st => st) device_states with
  | st :: _ => st
  | [] => false
  end.

Definition _async_fan_turn_on : M unit :=
  self <- get ;;
  match fan_entity_id self with
  | Some e => emit (Call SERVICE_TURN_ON e)
  | None => ret tt
  end.

Definition _async_fan_turn_off : M unit :=
  self <- get ;;
  match fan_entity_id self with
  | Some e => emit (Call SERVICE_TURN_OFF e)
  | None => ret tt
  end.

Definition _async_dryer_turn_on : M unit :=
  self <- get ;;
  match dryer_entity_id self with
  | Some e => emit (Call SERVICE_TURN_ON e)
  | None => ret tt
  end.

Definition _async_dryer_turn_off : M unit :=
  self <- get ;;
  match dryer_entity_id self with
  | Some e => emit (Call SERVICE_TURN_OFF e)
  | None => ret tt
  end.

(** The delayed fan tasks, as they run when their sleep is over. *)
Definition fan_on : M unit :=
  self <- get ;;
  when (_is_device_active self) _async_fan_turn_on.

Definition fan_off : M unit :=
  self <- get ;;
  when (negb (_is_device_active self) && String.eqb (_fan_mode self) FAN_MODE_AUTO)
    _async_fan_turn_off.

Definition _async_heater_turn_on : M unit :=
  self <- get ;;
  match heater_entity_id self with
  | Some e =>
      emit (Call SERVICE_TURN_ON e) ;;
      emit (EnsureFuture Task_fan_on)
  | None => ret tt
  end.

Definition _async_heater_turn_off : M unit :=
  self <- get ;;
  match heater_entity_id self with
  | Some e => emit (Call SERVICE_TURN_OFF e)
  | None => ret tt
  end ;;
  when (String.eqb (_fan_mode self) FAN_MODE_AUTO)
    (emit (EnsureFuture Task_fan_off)).

Definition _async_cooler_turn_on : M unit :=
  self <- get ;;
  match cooler_entity_id self with
  | Some e =>
      _async_fan_turn_on ;;
      emit (Call SERVICE_TURN_ON e)
  | None => ret tt
  end.

Definition _async_cooler_turn_off : M unit :=
  self <- get ;;
  when (String.eqb (_fan_mode self) FAN_MODE_AUTO) _async_fan_turn_off ;;
  match cooler_entity_id self with
  | Some e => emit (Call SERVICE_TURN_OFF e)
  | None => ret tt
  end.

(** [_async_control_heating], lines 600-626: the minimum-cycle gate.
    It yields the binding of the local [active_entity] for the rest of
    the function, or [Returned] when the function returns here. *)
Definition min_cycle_gate (time : option Z) (force : bool)
  : M (flow (local (option string))) :=
  self <- get ;;
  let active_entity : local (option string) := None in
  if negb force && Py.is_none time then
    if Py.opt_duration_truthy (min_cycle_duration self) then
      let active_entity :=
        if mode_is self HVAC_MODE_COOL then Some (cooler_entity_id self)
        else active_entity in
      let active_entity :=
        if mode_is self HVAC_MODE_HEAT then Some (heater_entity_id self)
        else active_entity in
      let active_entity :=
        if mode_is self HVAC_MODE_FAN_ONLY then Some (fan_entity_id self)
        else active_entity in
      let active_entity :=
        if mode_is self HVAC_MODE_DRY then Some (dryer_entity_id self)
        else active_entity in
      let current_state :=
        if _is_device_active self then STATE_ON
        else HVAC_MODE_OFF in
      entity <- read_local "active_entity" active_entity ;;
      let long_enough :=
        condition_state hass entity current_state (min_cycle_duration self) in
      if negb long_enough then ret Returned
      else ret (Proceed active_entity)
    else ret (Proceed active_entity)
  else ret (Proceed active_entity).

(** [_async_control_heating], lines 628-702: the hysteresis decision,
    given the binding of the local [active_entity]. *)
Definition hysteresis (time : option Z) (active_entity : local (option string))
  : M unit :=
  self <- get ;;
  cur_plus <- add_opt (_cur_temp self) (_cold_tolerance self) ;;
  too_cold <- ge_opt (_target_temp self) cur_plus ;;
  target_plus <- add_opt (_target_temp self) (_hot_tolerance self) ;;
  too_hot <- ge_opt (_cur_temp self) target_plus ;;
  (if _is_device_active self then (* when to turn off *)
     if too_cold && mode_is self HVAC_MODE_COOL then
       _async_cooler_turn_off
     else if too_hot && mode_is self HVAC_MODE_HEAT then
       _async_heater_turn_off
     else if mode_is self HVAC_MODE_FAN_ONLY then
       if too_cold && behavior_eqb (fan_behavior self) FAN_MODE_COOL then
         _async_fan_turn_off
       else if too_hot && behavior_eqb (fan_behavior self) FAN_MODE_HEAT then
         _async_fan_turn_off
       else ret tt
     else if mode_is self HVAC_MODE_DRY then
       if too_cold && behavior_eqb (dryer_behavior self) DRYER_MODE_COOL then
         _async_dryer_turn_off
       else if too_hot && behavior_eqb (dryer_behavior self) DRYER_MODE_HEAT then
         _async_dryer_turn_off
       else ret tt
     else if negb (Py.is_none time) then
       (* the argument of the logging call is evaluated first *)
       _ <- read_local "active_entity" active_entity ;;
       if mode_is self HVAC_MODE_COOL then _async_cooler_turn_on
       else if mode_is self HVAC_MODE_HEAT then _async_heater_turn_on
       else if mode_is self HVAC_MODE_FAN_ONLY then _async_fan_turn_on
       else if mode_is self HVAC_MODE_DRY then _async_dryer_turn_on
       else ret tt
     else ret tt
   else (* when to turn on *)
     if too_hot && mode_is self HVAC_MODE_COOL then
       _async_cooler_turn_on
     else if too_cold && mode_is self HVAC_MODE_HEAT then
       _async_heater_turn_on
     else if mode_is self HVAC_MODE_FAN_ONLY then
       if too_hot && behavior_eqb (fan_behavior self) FAN_MODE_COOL then
         _async_fan_turn_on
       else if too_cold && behavior_eqb (fan_behavior self) FAN_MODE_HEAT then
         _async_fan_turn_on
       else ret tt
     else if mode_is self HVAC_MODE_DRY then
       if too_hot && behavior_eqb (dryer_behavior self) DRYER_MODE_COOL then
         _async_dryer_turn_on
       else if too_cold && behavior_eqb (dryer_behavior self) DRYER_MODE_HEAT then
         _async_dryer_turn_on
       else ret tt
     else if negb (Py.is_none time) then
       _ <- read_local "active_entity" active_entity ;;
       if mode_is self HVAC_MODE_COOL then _async_cooler_turn_off
       else if mode_is self HVAC_MODE_HEAT then _async_heater_turn_off
       else if mode_is self HVAC_MODE_FAN_ONLY then _async_fan_turn_off
       else if mode_is self HVAC_MODE_DRY then _async_dryer_turn_off
       else ret tt
     else ret tt) ;;
  when (behavior_eqb (fan_behavior self) FAN_MODE_NEUTRAL
        && mode_is self HVAC_MODE_FAN_ONLY)
    _async_fan_turn_on ;;
  when (behavior_eqb (dryer_behavior self) DRYER_MODE_NEUTRAL
        && mode_is self HVAC_MODE_DRY)
    _async_dryer_turn_on.

(** [_async_control_heating(time=None, force=False)]. The body runs
    under [self._temp_lock]: one evaluation at a time. *)
Definition _async_control_heating (time : option Z) (force : bool) : M unit :=
  self <- get ;;
  when (negb (_active self)
        && negb (Py.is_none (_cur_temp self) || Py.is_none (_target_temp self)))
    (modify (set_active true)) ;;
  self <- get ;;
  if negb (_active self) || mode_is self HVAC_MODE_OFF then ret tt
  else
    gate <- min_cycle_gate time force ;;
    match gate with
    | Returned => ret tt
    | Proceed active_entity => hysteresis time active_entity
    end.

(** [_async_update_temp]: a [ValueError] of [float] is caught and logged. *)
Definition _async_update_temp (st : State) : M unit :=
  match py_float (state st) with
  | Some v => modify (set_cur_temp (Some v))
  | None => ret tt
  end.

(** [_async_sensor_changed(entity_id, old_state, new_state)]. *)
Definition _async_sensor_changed (new_state : option State) : M unit :=
  match new_state with
  | None => ret tt
  | Some ns =>
      if String.eqb (state ns) STATE_UNAVAILABLE
         || String.eqb (state ns) STATE_UNKNOWN
      then ret tt
      else
        _async_update_temp ns ;;
        _async_control_heating None false
  end.

(** [self.reverse_cycle.count(x) == 0]. *)
Definition rc_absent (self : Thermostat) (x : rc_item) : bool :=
  Nat.eqb (Py.list_count rc_eqb x (reverse_cycle self)) 0.

(** [async_set_hvac_mode(hvac_mode)]. *)
Definition async_set_hvac_mode (hvac_mode : string) : M unit :=
  if String.eqb hvac_mode HVAC_MODE_HEAT then
    modify (set_hvac_mode (Some HVAC_MODE_HEAT)) ;;
    self <- get ;;
    when (_is_device_active self)
      (when (rc_absent self REVERSE_CYCLE_IS_COOLER) _async_cooler_turn_off ;;
       when (rc_absent self REVERSE_CYCLE_IS_DRYER) _async_dryer_turn_off) ;;
    _async_control_heating None true
  else if String.eqb hvac_mode HVAC_MODE_COOL then
    modify (set_hvac_mode (Some HVAC_MODE_COOL)) ;;
    self <- get ;;
    when (_is_device_active self)
      (when (rc_absent self REVERSE_CYCLE_IS_HEATER) _async_heater_turn_off ;;
       when (rc_absent self REVERSE_CYCLE_IS_DRYER) _async_dryer_turn_off) ;;
    _async_control_heating None true
  else if String.eqb hvac_mode HVAC_MODE_FAN_ONLY then
    modify (set_hvac_mode (Some HVAC_MODE_FAN_ONLY)) ;;
    self <- get ;;
    when (_is_device_active self)
      (when (rc_absent self REVERSE_CYCLE_IS_COOLER) _async_cooler_turn_off ;;
       when (rc_absent self REVERSE_CYCLE_IS_HEATER) _async_heater_turn_off ;;
       when (rc_absent self REVERSE_CYCLE_IS_DRYER) _async_dryer_turn_off) ;;
    _async_control_heating None true
  else if String.eqb hvac_mode HVAC_MODE_DRY then
    modify (set_hvac_mode (Some HVAC_MODE_DRY)) ;;
    self <- get ;;
    when (_is_device_active self)
      (when (rc_absent self REVERSE_CYCLE_IS_COOLER) _async_cooler_turn_off ;;
       when (rc_absent self REVERSE_CYCLE_IS_HEATER) _async_heater_turn_off ;;
       when (rc_absent self REVERSE_CYCLE_IS_FAN) _async_fan_turn_off) ;;
    _async_control_heating None true
  else if String.eqb hvac_mode HVAC_MODE_OFF then
    modify (set_hvac_mode (Some HVAC_MODE_OFF)) ;;
    self <- get ;;
    when (_is_device_active self)
      (_async_heater_turn_off ;;
       _async_cooler_turn_off ;;
       when (String.eqb (_fan_mode self) FAN_MODE_AUTO) _async_fan_turn_off ;;
       _async_dryer_turn_off)
  else
    (* "Unrecognized hvac mode" *)
    ret tt.

(** [async_set_temperature(temperature=...)]. *)
Definition async_set_temperature (temperature : option float) : M unit :=
  match temperature with
  | None => ret tt
  | Some v =>
      modify (set_target_temp (Some v)) ;;
      _async_control_heating None true
  end.

(** The properties [min_temp] and [max_temp]. *)
Definition min_temp (self : Thermostat) : float :=
  match _min_temp self with
  | Some v => v
  | None => super_min_temp
  end.

Definition max_temp (self : Thermostat) : float :=
  match _max_temp self with
  | Some v => v
  | None => super_max_temp
  end.

(** [async_set_preset_mode(preset_mode)]. *)
Definition async_set_preset_mode (preset_mode : string) : M unit :=
  self <- get ;;
  if String.eqb preset_mode PRESET_AWAY && negb (_is_away self) then
    modify (set_is_away true) ;;
    modify (fun s => set_saved_target_temp (_target_temp s) s) ;;
    modify (fun s => set_target_temp (_away_temp s) s) ;;
    _async_control_heating None true
  else if String.eqb preset_mode PRESET_NONE && _is_away self then
    modify (set_is_away false) ;;
    modify (fun s => set_target_temp (_saved_target_temp s) s) ;;
    _async_control_heating None true
  else ret tt.

(** What [async_get_last_state] returns, as far as it is read here:
    the attributes "temperature" and "preset_mode" and the state. *)
Record OldState : Type := mkOldState {
  attr_temperature : option float;
  attr_preset_mode : option string;
  old_state_state : string
}.

(** [async_added_to_hass], lines 316-363: the restoration of the old
    state (the listeners registered before it are left out). *)
Definition async_added_to_hass (old_state : option OldState) : M unit :=
  match old_state with
  | Some old =>
      self <- get ;;
      when (Py.is_none (_target_temp self))
        (if Py.is_none (attr_temperature old) then
           self <- get ;;
           when (mode_is self HVAC_MODE_COOL)
             (modify (fun s => set_target_temp (Some (max_temp s)) s)) ;;
           when (mode_is self HVAC_MODE_FAN_ONLY)
             (modify (fun s => set_target_temp (Some (max_temp s)) s)) ;;
           when (mode_is self HVAC_MODE_HEAT)
             (modify (fun s => set_target_temp (Some (min_temp s)) s)) ;;
           if mode_is self HVAC_MODE_DRY then
             modify (fun s => set_target_temp (_min_temp s) s)
           else
             modify (fun s => set_target_temp (Some (min_temp s)) s)
         else
           modify (set_target_temp (attr_temperature old))) ;;
      when (match attr_preset_mode old with
            | Some p => String.eqb p PRESET_AWAY
            | None => false
            end)
        (modify (set_is_away true)) ;;
      self <- get ;;
      when (negb (Py.opt_str_truthy (_hvac_mode self))
            && Py.opt_str_truthy (Some (old_state_state old)))
        (modify (set_hvac_mode (Some (old_state_state old))))
  | None =>
      self <- get ;;
      when (Py.is_none (_target_temp self))
        (when (mode_is self HVAC_MODE_COOL)
           (modify (fun s => set_target_temp (Some (max_temp s)) s)) ;;
         when (mode_is self HVAC_MODE_FAN_ONLY)
           (modify (fun s => set_target_temp (Some (max_temp s)) s)) ;;
         when (mode_is self HVAC_MODE_HEAT)
           (modify (fun s => set_target_temp (Some (min_temp s)) s)) ;;
         if mode_is self HVAC_MODE_DRY then
           modify (fun s => set_target_temp (Some (min_temp s)) s)
         else
           modify (fun s => set_target_temp (Some (min_temp s)) s))
  end ;;
  (* Set default state to off *)
  self <- get ;;
  when (negb (Py.opt_str_truthy (_hvac_mode self)))
    (modify (set_hvac_mode (Some HVAC_MODE_OFF))).

(** [_async_startup(event)]: the sensor is read once when Home
    Assistant has started; no evaluation follows. *)
Definition _async_startup : M unit :=
  self <- get ;;
  match states_get hass (sensor_entity_id self) with
  | Some sensor_state =>
      if negb (String.eqb (state sensor_state) STATE_UNAVAILABLE
               || String.eqb (state sensor_state) STATE_UNKNOWN)
      then _async_update_temp sensor_state
      else ret tt
  | None => ret tt
  end.

(** [async_set_fan_mode(fan_mode)]. *)
Definition async_set_fan_mode (fan_mode : string) : M unit :=
  if negb (String.eqb (py_lower fan_mode) FAN_MODE_ON
           || String.eqb (py_lower fan_mode) FAN_MODE_AUTO)
  then ret tt (* "Invalid fan_mode value" *)
  else
    modify (set_fan_mode fan_mode) ;;
    if String.eqb fan_mode FAN_MODE_ON then _async_fan_turn_on
    else
      self <- get ;;
      if negb (_is_device_active self) then _async_fan_turn_off
      else ret tt.

(** The property [hvac_action]. *)
Definition hvac_action (self : Thermostat) : string :=
  if mode_is self HVAC_MODE_OFF then CURRENT_HVAC_OFF
  else if negb (_is_device_active self) then CURRENT_HVAC_IDLE
  else if mode_is self HVAC_MODE_COOL then CURRENT_HVAC_COOL
  else if mode_is self HVAC_MODE_HEAT then CURRENT_HVAC_HEAT
  else if mode_is self HVAC_MODE_FAN_ONLY then CURRENT_HVAC_FAN
  else if mode_is self HVAC_MODE_DRY then CURRENT_HVAC_DRY
  else CURRENT_HVAC_IDLE.

(** The properties [preset_mode], [preset_modes] (a list, or the bare
    string [PRESET_NONE]) and [supported_features]. *)
Definition preset_mode (self : Thermostat) : string :=
  if _is_away self then PRESET_AWAY else PRESET_NONE.

Definition preset_modes (self : Thermostat) : list string + string :=
  if Py.opt_float_truthy (_away_temp self) then inl [PRESET_NONE; PRESET_AWAY]
  else inr PRESET_NONE.

Definition supported_features (self : Thermostat) : Z := _support_flags self.

End Handlers.

(** ** Construction *)

(** The arguments of [__init__], as [async_setup_platform] reads them
    from the validated configuration. *)
Record Config : Type := mkConfig {
  CONF_NAME : string;
  CONF_HEATER : option string;
  CONF_COOLER : option string;
  CONF_SENSOR : string;
  CONF_FAN : option string;
  CONF_FAN_BEHAVIOR : behavior;
  CONF_DRYER : option string;
  CONF_DRYER_BEHAVIOR : behavior;
  CONF_REVERSE_CYCLE : list rc_item;
  CONF_MIN_TEMP : option float;
  CONF_MAX_TEMP : option float;
  CONF_TARGET_TEMP : option float;
  CONF_MIN_DUR : option Z;
  CONF_COLD_TOLERANCE : float;
  CONF_HOT_TOLERANCE : float;
  CONF_KEEP_ALIVE : option Z;
  CONF_INITIAL_HVAC_MODE : option string;
  CONF_AWAY_TEMP : option float;
  CONF_PRECISION : option float;
  CONF_FAN_MODE : string;
  temperature_unit : string
}.

(** [if c: l.remove(x)], with [None] for the [ValueError] of [remove]. *)
Definition remove_if (c : bool) (x : string) (l : list string) : option (list string) :=
  if c then Py.list_remove String.eqb x l else Some l.

(** The mode list built by [__init__], lines 249-259. *)
Definition init_hvac_list (c : Config) : option (list string) :=
  let l := [HVAC_MODE_COOL; HVAC_MODE_HEAT; HVAC_MODE_DRY; HVAC_MODE_FAN_ONLY;
            HVAC_MODE_OFF] in
  (* temp remove fan for debugging *)
  match Py.list_remove String.eqb HVAC_MODE_FAN_ONLY l with
  | None => None
  | Some l =>
  match remove_if (Py.is_none (CONF_COOLER c)) HVAC_MODE_COOL l with
  | None => None
  | Some l =>
  match remove_if (Py.is_none (CONF_HEATER c)) HVAC_MODE_HEAT l with
  | None => None
  | Some l =>
  match remove_if (Py.is_none (CONF_FAN c)) HVAC_MODE_FAN_ONLY l with
  | None => None
  | Some l => remove_if (Py.is_none (CONF_DRYER c)) HVAC_MODE_DRY l
  end end end end.

(** [DualModeGenericThermostat.__init__]: the new object, or the
    exception that leaves the constructor. *)
Definition __init__ (c : Config) : outcome Thermostat :=
  let reverse_cycle :=
    if Nat.eqb (Py.list_count rc_eqb (RcBool true) (CONF_REVERSE_CYCLE c)) 1 then
      [REVERSE_CYCLE_IS_HEATER; REVERSE_CYCLE_IS_COOLER]
    else if Nat.eqb (Py.list_count rc_eqb (RcBool false) (CONF_REVERSE_CYCLE c)) 1 then
      []
    else CONF_REVERSE_CYCLE c in
  match init_hvac_list c with
  | None => Raised Py.ValueError
  | Some hvac_list =>
      Normal
        {| _name := CONF_NAME c;
           heater_entity_id := CONF_HEATER c;
           cooler_entity_id := CONF_COOLER c;
           sensor_entity_id := CONF_SENSOR c;
           fan_entity_id := CONF_FAN c;
           fan_behavior := CONF_FAN_BEHAVIOR c;
           dryer_entity_id := CONF_DRYER c;
           dryer_behavior := CONF_DRYER_BEHAVIOR c;
           _fan_mode := CONF_FAN_MODE c;
           reverse_cycle := reverse_cycle;
           min_cycle_duration := CONF_MIN_DUR c;
           _cold_tolerance := CONF_COLD_TOLERANCE c;
           _hot_tolerance := CONF_HOT_TOLERANCE c;
           _keep_alive := CONF_KEEP_ALIVE c;
           _hvac_mode := CONF_INITIAL_HVAC_MODE c;
           _saved_target_temp := Py.or_ (CONF_TARGET_TEMP c) (CONF_AWAY_TEMP c);
           _temp_precision := CONF_PRECISION c;
           _hvac_list := hvac_list;
           _fan_mode_list := [FAN_MODE_ON; FAN_MODE_AUTO];
           _active := false;
           _cur_temp := None;
           _min_temp := CONF_MIN_TEMP c;
           _max_temp := CONF_MAX_TEMP c;
           _target_temp := CONF_TARGET_TEMP c;
           _unit := temperature_unit c;
           _support_flags :=
             if Py.opt_float_truthy (CONF_AWAY_TEMP c)
             then Z.lor SUPPORT_FLAGS SUPPORT_PRESET_MODE
             else SUPPORT_FLAGS;
           _away_temp := CONF_AWAY_TEMP c;
           _is_away := false |}
  end.

(** The property [hvac_modes]. *)
Definition hvac_modes (self : Thermostat) : list string := _hvac_list self.

(** ** Concrete surroundings for running the handlers *)

(** Python's [float] on plain decimal literals: an optional sign, digits,
    an optional point and digits, with the digits read as a number below
    2^53 and at most 15 of them after the point. On these the quotient
    of two exactly represented integers is the correctly rounded value,
    which is what [float] returns. Every other string is refused, also
    the exponent, "inf", "nan", underscore and blank-padded forms that
    [float] accepts; the handlers above take the parser as a parameter
    and this instance serves the concrete runs. *)
Definition digit_of (a : ascii) : option Z :=
  let n := Z.of_nat (nat_of_ascii a) in
  if Z.leb 48 n && Z.leb n 57 then Some (n - 48)%Z else None.

Fixpoint read_digits (s : string) (acc cnt : Z) : Z * Z * string :=
  match s with
  | String a s' =>
      match digit_of a with
      | Some d => read_digits s' (10 * acc + d)%Z (cnt + 1)%Z
      | None => (acc, cnt, s)
      end
  | EmptyString => (acc, cnt, s)
  end.

Definition float_of_Z (n : Z) : float := PrimFloat.of_uint63 (Uint63.of_Z n).

Definition float_of_decimal (s : string) : option float :=
  let '(neg, s1) :=
    match s with
    | String "-" r => (true, r)
    | String "+" r => (false, r)
    | _ => (false, s)
    end in
  let '(ip, ic, s2) := read_digits s1 0 0 in
  let '(n, fc, s3) :=
    match s2 with
    | String "." r => read_digits r ip 0
    | _ => (ip, 0%Z, s2)
    end in
  if String.eqb s3 "" && Z.ltb 0 (ic + fc) && Z.ltb n (2 ^ 53) && Z.leb fc 15 then
    let v := PrimFloat.div (float_of_Z n) (float_of_Z (10 ^ fc)) in
    Some (if neg then PrimFloat.opp v else v)
  else None.

(** The switches obeying the calls of a trace: a called entity takes the
    commanded state, with [last_changed] now. *)
Definition obey_event (e : event) (hass : Hass) : Hass :=
  match e with
  | Call s entity_id =>
      let new_state :=
        match s with
        | SERVICE_TURN_ON => "on"
        | SERVICE_TURN_OFF => "off"
        end in
      mkHass (fun x => if String.eqb x entity_id then Some (mkState new_state 0)
                       else states_get hass x)
  | EnsureFuture _ => hass
  end.

Definition obey (tr : list event) (hass : Hass) : Hass :=
  List.fold_left (fun h e => obey_event e h) tr hass.

(** Every entity exists, is "off", and has been for [since] microseconds. *)
Definition all_off (since : Z) : Hass :=
  mkHass (fun _ => Some (mkState "off" since)).

(** A configuration with all four actuators and the default tolerances,
    varying in the initial mode, the configured target, the minimum
    cycle duration and the fan mode. *)
Definition config_with (mode : option string) (target : option float)
    (min_dur : option Z) (fan_mode : string) : Config :=
  {| CONF_NAME := "Generic Thermostat";
     CONF_HEATER := Some "switch.heater";
     CONF_COOLER := Some "switch.cooler";
     CONF_SENSOR := "sensor.temperature";
     CONF_FAN := Some "switch.fan";
     CONF_FAN_BEHAVIOR := FAN_MODE_NEUTRAL;
     CONF_DRYER := Some "switch.dryer";
     CONF_DRYER_BEHAVIOR := DRYER_MODE_NEUTRAL;
     CONF_REVERSE_CYCLE := [];
     CONF_MIN_TEMP := None;
     CONF_MAX_TEMP := None;
     CONF_TARGET_TEMP := target;
     CONF_MIN_DUR := min_dur;
     CONF_COLD_TOLERANCE := 0.3%float;
     CONF_HOT_TOLERANCE := 0.3%float;
     CONF_KEEP_ALIVE := None;
     CONF_INITIAL_HVAC_MODE := mode;
     CONF_AWAY_TEMP := Some 16.0%float;
     CONF_PRECISION := None;
     CONF_FAN_MODE := fan_mode;
     temperature_unit := "C" |}.

(** The object [__init__] builds from a configuration it accepts. *)
Definition configured (c : Config) : Thermostat :=
  match __init__ c with
  | Normal t => t
  | Raised _ =>
      mkThermostat "" None None "" None Neutral None Neutral "" [] None
        0%float 0%float None None None None [] [] false None None None None
        "" 0 None false
  end.

(** Heating to 21.0 degrees, no minimum cycle, fan on "auto". *)
Definition home_config : Config :=
  config_with (Some HVAC_MODE_HEAT) (Some 21.0%float) None FAN_MODE_AUTO.

Definition home : Thermostat := configured home_config.

(** The same with a minimum cycle of ten minutes. *)
Definition home_cycle : Thermostat :=
  configured (config_with (Some HVAC_MODE_HEAT) (Some 21.0%float)
                (Some 600000000%Z) FAN_MODE_AUTO).

(** Cooling with no target configured. *)
Definition home_cool_unset : Thermostat :=
  configured (config_with (Some HVAC_MODE_COOL) None None FAN_MODE_AUTO).

(** The fan on "on" instead of "auto". *)
Definition home_fan_on : Thermostat :=
  configured (config_with (Some HVAC_MODE_HEAT) (Some 21.0%float) None FAN_MODE_ON).

(** The heater is "on" (for [since] microseconds), all else "off". *)
Definition heater_on (since : Z) : Hass :=
  obey_event (Call SERVICE_TURN_ON "switch.heater") (all_off since).

(** Heating to 21.0 degrees with no away temperature configured. *)
Definition home_no_away : Thermostat :=
  configured
    (mkConfig "Generic Thermostat" (Some "switch.heater") (Some "switch.cooler")
       "sensor.temperature" (Some "switch.fan") FAN_MODE_NEUTRAL
       (Some "switch.dryer") DRYER_MODE_NEUTRAL [] None None (Some 21.0%float)
       None 0.3%float 0.3%float None (Some HVAC_MODE_HEAT) None None
       FAN_MODE_AUTO "C").

(** ** Auxiliary notions for the statements *)

(** Cooler, heater or dryer is "on": [_is_device_active] as a function of
    the three entity ids it reads. *)
Definition any_on (hass : Hass) (cooler heater dryer : option string) : bool :=
  _is_device_active hass
    (mkThermostat "" heater cooler "" None Neutral dryer Neutral "" [] None
       0%float 0%float None None None None [] [] false None None None None
       "" 0 None false).

Definition service_eqb (a b : service) : bool :=
  match a, b with
  | SERVICE_TURN_ON, SERVICE_TURN_ON | SERVICE_TURN_OFF, SERVICE_TURN_OFF => true
  | _, _ => false
  end.

Definition event_eqb (a b : event) : bool :=
  match a, b with
  | Call s x, Call s' x' => service_eqb s s' && String.eqb x x'
  | EnsureFuture Task_fan_on, EnsureFuture Task_fan_on
  | EnsureFuture Task_fan_off, EnsureFuture Task_fan_off => true
  | _, _ => false
  end.

(** [a] is issued, and [b] is issued later in the trace. *)
Fixpoint issued_before (a b : event) (tr : list event) : bool :=
  match tr with
  | [] => false
  | e :: tr' =>
      if event_eqb e a then List.existsb (event_eqb b) tr'
      else issued_before a b tr'
  end.

(** A computation that leaves [self] as it is. *)
Definition readonly {A : Type} (c : M A) : Prop :=
  forall self, self_of (c self) = self.

(** * Properties *)

(** ** Proof infrastructure *)

Lemma is_device_active_any_on (hass : Hass) (s : Thermostat) :
  _is_device_active hass s
  = any_on hass (cooler_entity_id s) (heater_entity_id s) (dryer_entity_id s).
Proof. reflexivity. Qed.

Global Opaque any_on.
Arguments any_on : simpl never.
Arguments _is_device_active : simpl never.
Arguments condition_state : simpl never.

Ltac unfold_m :=
  unfold bind, get, ret, modify, emit, raise, when, read_local, add_opt, ge_opt in *.

Ltac unfold_handlers :=
  unfold _async_control_heating, hysteresis, min_cycle_gate,
    _async_heater_turn_on, _async_heater_turn_off,
    _async_cooler_turn_on, _async_cooler_turn_off,
    _async_fan_turn_on, _async_fan_turn_off,
    _async_dryer_turn_on, _async_dryer_turn_off, mode_is in *.

Ltac case_cond :=
  match goal with
  | |- context [if ?b then _ else _] => destruct b eqn:?
  | H : context [if ?b then _ else _] |- _ => destruct b eqn:?
  | |- context [match ?x with Some _ => _ | None => _ end] => destruct x eqn:?
  | H : context [match ?x with Some _ => _ | None => _ end] |- _ => destruct x eqn:?
  end.

(** Evaluate a run: unfold the monad, simplify, split on the next
    undetermined condition, and drop the impossible branches. *)
Ltac crunch :=
  repeat (unfold_m; cbn in *;
          rewrite ?is_device_active_any_on, ?andb_false_r, ?andb_true_r,
            ?orb_false_r, ?orb_true_r in *;
          cbn in *; try discriminate; try case_cond).

(** ** Floats *)

Lemma SFcompare_Eq_sym (x y : SpecFloat.spec_float) :
  SpecFloat.SFcompare x y = Some Eq -> SpecFloat.SFcompare y x = Some Eq.
Proof.
  destruct x as [sx|sx| |sx mx ex], y as [sy|sy| |sy my ey]; simpl;
    try (intros H; discriminate H); auto;
    try (destruct sx; intros H; discriminate H);
    try (destruct sy; intros H; discriminate H).
  - destruct sx, sy; intros H; try discriminate H; auto.
  - destruct sx, sy; try (intros H; discriminate H);
      destruct (Z.compare_spec ex ey) as [He|He|He]; try (intros H; discriminate H);
      intros H; injection H as H.
    + apply (f_equal CompOpp) in H. rewrite CompOpp_involutive in H. simpl in H.
      change (PosDef.Pos.compare_cont Eq mx my) with (Pos.compare mx my) in H.
      apply Pos.compare_eq in H. subst. rewrite Z.compare_refl.
      change (PosDef.Pos.compare_cont Eq my my) with (Pos.compare my my).
      rewrite Pos.compare_refl. reflexivity.
    + change (PosDef.Pos.compare_cont Eq mx my) with (Pos.compare mx my) in H.
      apply Pos.compare_eq in H. subst. rewrite Z.compare_refl.
      change (PosDef.Pos.compare_cont Eq my my) with (Pos.compare my my).
      rewrite Pos.compare_refl. reflexivity.
Qed.

(** [a == b] implies [a >= b]: the comparisons are inclusive. *)
Lemma float_eq_ge (a b : float) :
  PrimFloat.eqb a b = true -> Py.ge a b = true.
Proof.
  unfold Py.ge. rewrite FloatAxioms.eqb_spec, FloatAxioms.leb_spec.
  unfold SpecFloat.SFeqb, SpecFloat.SFleb. intros H.
  destruct (SpecFloat.SFcompare (Prim2SF a) (Prim2SF b)) as [[]|] eqn:E;
    try discriminate H.
  rewrite (SFcompare_Eq_sym _ _ E). reflexivity.
Qed.

(** ** The thresholds of the hysteresis step *)

Section Thresholds.

Variable hass : Hass.
Variable self : Thermostat.
Variables (time : option Z) (force : bool).
Variables t c : float.
Hypothesis Hcur : _cur_temp self = Some c.
Hypothesis Htarget : _target_temp self = Some t.

Let too_cold : bool := Py.ge t (PrimFloat.add c (_cold_tolerance self)).
Let too_hot : bool := Py.ge c (PrimFloat.add t (_hot_tolerance self)).
Let tr : list event := trace_of (_async_control_heating hass time force self).

Variable ae : local (option string).
Hypothesis Hgate :
  result_of (min_cycle_gate hass time force self) = Normal (Proceed ae).

Lemma heat_thresholds (h : string) :
  _hvac_mode self = Some HVAC_MODE_HEAT -> heater_entity_id self = Some h ->
  if _is_device_active hass self
  then In (Call SERVICE_TURN_OFF h) tr <-> too_hot = true
  else In (Call SERVICE_TURN_ON h) tr <-> too_cold = true.
Proof.
  intros Hm Hh. subst too_cold too_hot tr.
  unfold Py.ge, result_of, trace_of in *. unfold_handlers.
  destruct self; cbn in Hcur, Htarget, Hm, Hh. subst.
  destruct _active0, force, time; crunch;
    intuition (discriminate || congruence).
Qed.

Lemma cool_thresholds (k : string) :
  _hvac_mode self = Some HVAC_MODE_COOL -> cooler_entity_id self = Some k ->
  if _is_device_active hass self
  then In (Call SERVICE_TURN_OFF k) tr <-> too_cold = true
  else In (Call SERVICE_TURN_ON k) tr <-> too_hot = true.
Proof.
  intros Hm Hk. subst too_cold too_hot tr.
  unfold Py.ge, result_of, trace_of in *. unfold_handlers.
  destruct self; cbn in Hcur, Htarget, Hm, Hk. subst.
  destruct _active0, force, time; crunch;
    intuition (discriminate || congruence).
Qed.

End Thresholds.

(** C1. Every evaluation that reaches the hysteresis step (both
    temperatures set, hence active; the minimum-cycle gate passed)
    decides on [too_cold = target >= current + cold_tolerance] and
    [too_hot = current >= target + hot_tolerance]: in HEAT the heater is
    turned on exactly when too cold (device off) and off exactly when too
    hot (device on); in COOL the cooler is turned on exactly when too
    hot and off exactly when too cold. The comparisons are inclusive:
    equality triggers. With mode HEAT, target 21.0 and both tolerances
    0.3, the reading 20.6 turns the heater on and the following reading
    21.4 turns it off. *)
Theorem C1_hysteresis_thresholds :
  (forall (hass : Hass) (self : Thermostat) (time : option Z) (force : bool)
          (t c : float) (ae : local (option string)),
      _cur_temp self = Some c ->
      _target_temp self = Some t ->
      result_of (min_cycle_gate hass time force self) = Normal (Proceed ae) ->
      let too_cold := Py.ge t (PrimFloat.add c (_cold_tolerance self)) in
      let too_hot := Py.ge c (PrimFloat.add t (_hot_tolerance self)) in
      let tr := trace_of (_async_control_heating hass time force self) in
      (forall h, _hvac_mode self = Some HVAC_MODE_HEAT ->
                 heater_entity_id self = Some h ->
                 if _is_device_active hass self
                 then In (Call SERVICE_TURN_OFF h) tr <-> too_hot = true
                 else In (Call SERVICE_TURN_ON h) tr <-> too_cold = true)
      /\ (forall k, _hvac_mode self = Some HVAC_MODE_COOL ->
                    cooler_entity_id self = Some k ->
                    if _is_device_active hass self
                    then In (Call SERVICE_TURN_OFF k) tr <-> too_cold = true
                    else In (Call SERVICE_TURN_ON k) tr <-> too_hot = true)
      /\ (PrimFloat.eqb t (PrimFloat.add c (_cold_tolerance self)) = true ->
          too_cold = true)
      /\ (PrimFloat.eqb c (PrimFloat.add t (_hot_tolerance self)) = true ->
          too_hot = true))
  /\ (let hass0 := all_off 0 in
      let r1 := _async_sensor_changed hass0 float_of_decimal
                  (Some (mkState "20.6" 0)) home in
      let hass1 := obey (trace_of r1) hass0 in
      let r2 := _async_sensor_changed hass1 float_of_decimal
                  (Some (mkState "21.4" 0)) (self_of r1) in
      _hvac_mode home = Some HVAC_MODE_HEAT
      /\ _target_temp home = Some 21.0%float
      /\ _cold_tolerance home = 0.3%float
      /\ _hot_tolerance home = 0.3%float
      /\ _cur_temp (self_of r1) = Some 20.6%float
      /\ trace_of r1 = [Call SERVICE_TURN_ON "switch.heater"; EnsureFuture Task_fan_on]
      /\ _cur_temp (self_of r2) = Some 21.4%float
      /\ trace_of r2 = [Call SERVICE_TURN_OFF "switch.heater"; EnsureFuture Task_fan_off]).
Proof.
  split.
  - intros hass self time force t c ae Hc Ht Hg too_cold too_hot tr.
    split; [| split; [| split]].
    + intros h Hm Hh.
      exact (heat_thresholds hass self time force t c Hc Ht ae Hg h Hm Hh).
    + intros k Hm Hk.
      exact (cool_thresholds hass self time force t c Hc Ht ae Hg k Hm Hk).
    + apply float_eq_ge.
    + apply float_eq_ge.
  - vm_compute. repeat split.
Qed.

Lemma C1_hysteresis_thresholds_witness :
  let self := set_cur_temp (Some 20.6%float) home in
  (_cur_temp self = Some 20.6%float
   /\ _target_temp self = Some 21.0%float
   /\ result_of (min_cycle_gate (all_off 0) None false self) = Normal (Proceed None)
   /\ _hvac_mode self = Some HVAC_MODE_HEAT
   /\ heater_entity_id self = Some "switch.heater")
  /\ (In (Call SERVICE_TURN_ON "switch.heater")
         (trace_of (_async_control_heating (all_off 0) None false self))
      <-> Py.ge 21.0%float (PrimFloat.add 20.6%float 0.3%float) = true).
Proof.
  split.
  - repeat split.
  - exact (proj1 (proj1 C1_hysteresis_thresholds (all_off 0)
                   (set_cur_temp (Some 20.6%float) home) None false
                   21.0%float 20.6%float None eq_refl eq_refl eq_refl)
             "switch.heater" eq_refl eq_refl).
Defined.

(** C6. While the current or the target temperature is unset (and the
    thermostat is therefore not yet active), or while the mode is OFF, an
    evaluation returns normally and issues no command, whatever its
    trigger. *)
Theorem C6_no_command_when_inactive_or_off :
  forall (hass : Hass) (self : Thermostat) (time : option Z) (force : bool),
    (_active self = false /\ (_cur_temp self = None \/ _target_temp self = None))
    \/ _hvac_mode self = Some HVAC_MODE_OFF ->
    result_of (_async_control_heating hass time force self) = Normal tt
    /\ trace_of (_async_control_heating hass time force self) = [].
Proof.
  intros hass self time force H.
  unfold _async_control_heating, mode_is, result_of, trace_of.
  destruct self; cbn in H.
  destruct H as [[Ha [Hc | Ht]] | Hm]; subst.
  - crunch; auto.
  - destruct _cur_temp0; crunch; auto.
  - destruct _active0, _cur_temp0, _target_temp0; crunch; auto.
Qed.

Lemma C6_no_command_when_inactive_or_off_witness :
  let self := set_hvac_mode (Some HVAC_MODE_OFF) (set_cur_temp (Some 15.0%float) home) in
  _hvac_mode self = Some HVAC_MODE_OFF
  /\ result_of (_async_control_heating (all_off 0) None true self) = Normal tt
  /\ trace_of (_async_control_heating (all_off 0) None true self) = [].
Proof.
  split.
  - reflexivity.
  - apply (C6_no_command_when_inactive_or_off (all_off 0)
             (set_hvac_mode (Some HVAC_MODE_OFF) (set_cur_temp (Some 15.0%float) home))
             None true).
    right. reflexivity.
Defined.

(** ** What an evaluation leaves untouched *)

Lemma readonly_ret {A : Type} (a : A) : readonly (ret a).
Proof. intros self. reflexivity. Qed.

Lemma readonly_get : readonly get.
Proof. intros self. reflexivity. Qed.

Lemma readonly_emit (e : event) : readonly (emit e).
Proof. intros self. reflexivity. Qed.

Lemma readonly_raise {A : Type} (e : Py.exn) : readonly (@raise A e).
Proof. intros self. reflexivity. Qed.

Lemma readonly_bind {A B : Type} (c : M A) (k : A -> M B) :
  readonly c -> (forall a, readonly (k a)) -> readonly (bind c k).
Proof.
  intros Hc Hk self. specialize (Hc self). unfold self_of, bind in *.
  destruct (c self) as [[r s] tr]. cbn in Hc. subst s.
  destruct r as [a | e]; [| reflexivity].
  specialize (Hk a self). unfold self_of in Hk.
  destruct (k a self) as [[r' s'] tr']. exact Hk.
Qed.

Lemma readonly_when (b : bool) (c : M unit) : readonly c -> readonly (when b c).
Proof. intros H. destruct b; [exact H | apply readonly_ret]. Qed.

Lemma readonly_read_local {A : Type} (name : string) (v : local A) :
  readonly (read_local name v).
Proof. destruct v; [apply readonly_ret | apply readonly_raise]. Qed.

Lemma readonly_add_opt (a : option float) (b : float) : readonly (add_opt a b).
Proof. destruct a; [apply readonly_ret | apply readonly_raise]. Qed.

Lemma readonly_ge_opt (a : option float) (b : float) : readonly (ge_opt a b).
Proof. destruct a; [apply readonly_ret | apply readonly_raise]. Qed.

Ltac readonly_step :=
  first
    [ apply readonly_ret | apply readonly_get | apply readonly_emit
    | apply readonly_raise | apply readonly_read_local
    | apply readonly_add_opt | apply readonly_ge_opt
    | apply readonly_when
    | apply readonly_bind; [| intros ?]
    | match goal with
      | |- readonly (if ?b then _ else _) => destruct b
      | |- readonly (match ?x with Some _ => _ | None => _ end) => destruct x
      | |- readonly (match ?x with Proceed _ => _ | Returned => _ end) => destruct x
      end ].

Lemma readonly_fan_turn_on : readonly _async_fan_turn_on.
Proof. unfold _async_fan_turn_on. repeat readonly_step. Qed.

Lemma readonly_fan_turn_off : readonly _async_fan_turn_off.
Proof. unfold _async_fan_turn_off. repeat readonly_step. Qed.

Lemma readonly_dryer_turn_on : readonly _async_dryer_turn_on.
Proof. unfold _async_dryer_turn_on. repeat readonly_step. Qed.

Lemma readonly_dryer_turn_off : readonly _async_dryer_turn_off.
Proof. unfold _async_dryer_turn_off. repeat readonly_step. Qed.

Lemma readonly_heater_turn_on : readonly _async_heater_turn_on.
Proof. unfold _async_heater_turn_on. repeat readonly_step. Qed.

Lemma readonly_heater_turn_off : readonly _async_heater_turn_off.
Proof. unfold _async_heater_turn_off. repeat readonly_step. Qed.

Lemma readonly_cooler_turn_on : readonly _async_cooler_turn_on.
Proof.
  unfold _async_cooler_turn_on.
  repeat first [apply readonly_fan_turn_on | readonly_step].
Qed.

Lemma readonly_cooler_turn_off : readonly _async_cooler_turn_off.
Proof.
  unfold _async_cooler_turn_off.
  repeat first [apply readonly_fan_turn_off | readonly_step].
Qed.

Ltac readonly_handlers :=
  repeat first
    [ apply readonly_fan_turn_on | apply readonly_fan_turn_off
    | apply readonly_dryer_turn_on | apply readonly_dryer_turn_off
    | apply readonly_heater_turn_on | apply readonly_heater_turn_off
    | apply readonly_cooler_turn_on | apply readonly_cooler_turn_off
    | readonly_step ].

Lemma readonly_min_cycle_gate (hass : Hass) (time : option Z) (force : bool) :
  readonly (min_cycle_gate hass time force).
Proof. unfold min_cycle_gate. readonly_handlers. Qed.

Lemma readonly_hysteresis (hass : Hass) (time : option Z)
    (ae : local (option string)) :
  readonly (hysteresis hass time ae).
Proof. unfold hysteresis. readonly_handlers. Qed.

Lemma self_of_bind_get {B : Type} (k : Thermostat -> M B) (s : Thermostat) :
  self_of (bind get k s) = self_of (k s s).
Proof.
  unfold self_of, bind, get. destruct (k s s) as [[r s'] tr]. reflexivity.
Qed.

Lemma self_of_when_modify {B : Type} (b : bool) (f : Thermostat -> Thermostat)
    (rest : M B) (s : Thermostat) :
  readonly rest ->
  self_of (bind (when b (modify f)) (fun _ => rest) s) = if b then f s else s.
Proof.
  intros H. unfold self_of, bind, when, modify, ret.
  destruct b; cbv beta iota.
  - specialize (H (f s)). unfold self_of in H.
    destruct (rest (f s)) as [[r s'] tr]. exact H.
  - specialize (H s). unfold self_of in H.
    destruct (rest s) as [[r s'] tr]. exact H.
Qed.

(** An evaluation changes nothing of [self] but [_active], which it can
    only set. *)
Lemma control_heating_self (hass : Hass) (time : option Z) (force : bool)
    (self : Thermostat) :
  self_of (_async_control_heating hass time force self) = self
  \/ self_of (_async_control_heating hass time force self) = set_active true self.
Proof.
  unfold _async_control_heating.
  rewrite self_of_bind_get, self_of_when_modify.
  - destruct (negb (_active self) && _)%bool; auto.
  - repeat first [apply readonly_min_cycle_gate | apply readonly_hysteresis
                 | readonly_step].
Qed.

Lemma self_of_bind_modify {B : Type} (f : Thermostat -> Thermostat)
    (k : M B) (s : Thermostat) :
  self_of (bind (modify f) (fun _ => k) s) = self_of (k (f s)).
Proof.
  unfold self_of, bind, modify. destruct (k (f s)) as [[r s'] tr]. reflexivity.
Qed.

(** ** Presets *)

Lemma preset_away_self (hass : Hass) (self : Thermostat) :
  _is_away self = false ->
  let s' := set_target_temp (_away_temp self)
              (set_saved_target_temp (_target_temp self) (set_is_away true self)) in
  self_of (async_set_preset_mode hass PRESET_AWAY self) = s'
  \/ self_of (async_set_preset_mode hass PRESET_AWAY self) = set_active true s'.
Proof.
  intros Haway s'. unfold async_set_preset_mode.
  rewrite self_of_bind_get, Haway. cbn [String.eqb Ascii.eqb Bool.eqb PRESET_AWAY andb negb].
  rewrite !self_of_bind_modify.
  apply control_heating_self.
Qed.

Lemma preset_none_self (hass : Hass) (self : Thermostat) :
  _is_away self = true ->
  let s' := set_target_temp (_saved_target_temp self) (set_is_away false self) in
  self_of (async_set_preset_mode hass PRESET_NONE self) = s'
  \/ self_of (async_set_preset_mode hass PRESET_NONE self) = set_active true s'.
Proof.
  intros Haway s'. unfold async_set_preset_mode.
  rewrite self_of_bind_get, Haway.
  cbn [String.eqb Ascii.eqb Bool.eqb PRESET_AWAY PRESET_NONE andb negb].
  rewrite !self_of_bind_modify.
  apply control_heating_self.
Qed.

(** C9. From a state that is not away, the preset AWAY saves the target
    temperature and replaces it with the away temperature; the preset
    NONE that follows restores the saved target exactly. A request for
    the preset that is already active changes nothing and sends
    nothing. *)
Theorem C9_away_round_trip :
  (forall (hass hass' : Hass) (self : Thermostat),
      _is_away self = false ->
      let s1 := self_of (async_set_preset_mode hass PRESET_AWAY self) in
      let s2 := self_of (async_set_preset_mode hass' PRESET_NONE s1) in
      _saved_target_temp s1 = _target_temp self
      /\ _target_temp s1 = _away_temp self
      /\ _is_away s1 = true
      /\ _target_temp s2 = _target_temp self
      /\ _is_away s2 = false)
  /\ (forall (hass : Hass) (self : Thermostat) (preset_mode : string),
         (preset_mode = PRESET_AWAY /\ _is_away self = true)
         \/ (preset_mode = PRESET_NONE /\ _is_away self = false) ->
         async_set_preset_mode hass preset_mode self = (Normal tt, self, [])).
Proof.
  split.
  - intros hass hass' self Haway s1 s2.
    assert (H1 : _saved_target_temp s1 = _target_temp self
                 /\ _target_temp s1 = _away_temp self /\ _is_away s1 = true).
    { subst s1. destruct (preset_away_self hass self Haway) as [E | E];
        rewrite E; repeat split. }
    destruct H1 as (Hs & Ht & Ha). repeat split; try assumption.
    + subst s2. destruct (preset_none_self hass' s1 Ha) as [E | E];
        rewrite E; cbn; exact Hs.
    + subst s2. destruct (preset_none_self hass' s1 Ha) as [E | E];
        rewrite E; reflexivity.
  - intros hass self p [[Hp Ha] | [Hp Ha]]; subst p;
      unfold async_set_preset_mode, bind, get; rewrite Ha; reflexivity.
Qed.

Lemma C9_away_round_trip_witness :
  let self := set_cur_temp (Some 20.0%float) home in
  let s1 := self_of (async_set_preset_mode (all_off 0) PRESET_AWAY self) in
  let s2 := self_of (async_set_preset_mode (heater_on 0) PRESET_NONE s1) in
  _is_away self = false
  /\ _target_temp self = Some 21.0%float
  /\ _target_temp s1 = Some 16.0%float
  /\ _target_temp s2 = _target_temp self.
Proof.
  split; [reflexivity |].
  split; [reflexivity |].
  split; [reflexivity |].
  exact (proj1 (proj2 (proj2 (proj2
           (proj1 C9_away_round_trip (all_off 0) (heater_on 0)
              (set_cur_temp (Some 20.0%float) home) eq_refl))))).
Defined.

(** ** Sensor readings *)

Lemma bind_ret_tt {B : Type} (k : M B) (s : Thermostat) :
  bind (ret tt) (fun _ => k) s = k s.
Proof. unfold bind, ret. destruct (k s) as [[r s'] tr]. reflexivity. Qed.

(** C8 (as the code has it). A sensor update that is missing,
    "unavailable" or "unknown" is ignored: nothing changes, nothing is
    sent, no evaluation runs. Any other reading that [float] refuses
    leaves the current temperature as it was and its [ValueError] does
    not leave the handler, but the evaluation still runs, unforced, on
    the previous temperature. *)
Theorem C8_refused_reading :
  forall (hass : Hass) (py_float : string -> option float)
         (self : Thermostat) (new_state : State),
    py_float (state new_state) = None ->
    let r := _async_sensor_changed hass py_float (Some new_state) self in
    _cur_temp (self_of r) = _cur_temp self
    /\ (state new_state = STATE_UNAVAILABLE \/ state new_state = STATE_UNKNOWN ->
        r = (Normal tt, self, []))
    /\ (state new_state <> STATE_UNAVAILABLE -> state new_state <> STATE_UNKNOWN ->
        r = _async_control_heating hass None false self)
    /\ _async_sensor_changed hass py_float None self = (Normal tt, self, []).
Proof.
  intros hass py_float self ns Hf r. subst r.
  unfold _async_sensor_changed, _async_update_temp. rewrite Hf.
  destruct (String.eqb_spec (state ns) STATE_UNAVAILABLE) as [Hu | Hu];
    [| destruct (String.eqb_spec (state ns) STATE_UNKNOWN) as [Hk | Hk]];
    cbn [orb].
  - repeat split; intros; try reflexivity. contradiction.
  - repeat split; intros; try reflexivity. contradiction.
  - rewrite bind_ret_tt. repeat split; intros; try reflexivity.
    + destruct (control_heating_self hass None false self) as [E | E];
        rewrite E; reflexivity.
    + destruct H as [H | H]; contradiction.
Qed.

Lemma C8_refused_reading_witness :
  let self := set_cur_temp (Some 18.0%float) home in
  let new_state := mkState "abc" 0 in
  float_of_decimal (state new_state) = None
  /\ _async_sensor_changed (all_off 0) float_of_decimal (Some new_state) self
     = _async_control_heating (all_off 0) None false self.
Proof.
  split; [reflexivity |].
  apply (C8_refused_reading (all_off 0) float_of_decimal
           (set_cur_temp (Some 18.0%float) home) (mkState "abc" 0) eq_refl);
    discriminate.
Defined.

(** C8 as stated fails: once the start-up has read 18.0 from the sensor,
    the refused reading "abc" makes the evaluation run; it activates the
    thermostat and turns the heater on. *)
Lemma C8_counterexample :
  let self := set_cur_temp (Some 18.0%float) home in
  let r := _async_sensor_changed (all_off 0) float_of_decimal
             (Some (mkState "abc" 0)) self in
  float_of_decimal "abc" = None
  /\ _active self = false
  /\ _active (self_of r) = true
  /\ trace_of r = [Call SERVICE_TURN_ON "switch.heater"; EnsureFuture Task_fan_on]
  /\ r <> (Normal tt, self, []).
Proof.
  vm_compute. repeat split. discriminate.
Qed.

(** ** Cooler and fan *)

(** C7 (as the code has it). With a cooler configured, the cooler-on
    command is preceded by a fan-on command sent in the same call,
    whatever the fan mode; the cooler-off command is preceded by a
    fan-off command sent in the same call when the fan mode is "auto",
    and comes alone otherwise. No task is scheduled. *)
Theorem C7_cooler_fan_order :
  forall (self : Thermostat) (k : string),
    cooler_entity_id self = Some k ->
    _async_cooler_turn_on self
    = (Normal tt, self,
       match fan_entity_id self with
       | Some f => [Call SERVICE_TURN_ON f]
       | None => []
       end ++ [Call SERVICE_TURN_ON k])
    /\ _async_cooler_turn_off self
       = (Normal tt, self,
          (if String.eqb (_fan_mode self) FAN_MODE_AUTO
           then match fan_entity_id self with
                | Some f => [Call SERVICE_TURN_OFF f]
                | None => []
                end
           else []) ++ [Call SERVICE_TURN_OFF k]).
Proof.
  intros self k Hk.
  unfold _async_cooler_turn_on, _async_cooler_turn_off,
    _async_fan_turn_on, _async_fan_turn_off.
  destruct self; cbn in Hk; subst.
  destruct fan_entity_id0, (String.eqb _fan_mode0 FAN_MODE_AUTO) eqn:Hauto;
    repeat (unfold_m; cbn; rewrite ?Hauto); split; reflexivity.
Qed.

Lemma C7_cooler_fan_order_witness :
  cooler_entity_id home = Some "switch.cooler"
  /\ trace_of (_async_cooler_turn_on home)
     = [Call SERVICE_TURN_ON "switch.fan"; Call SERVICE_TURN_ON "switch.cooler"]
  /\ trace_of (_async_cooler_turn_off home)
     = [Call SERVICE_TURN_OFF "switch.fan"; Call SERVICE_TURN_OFF "switch.cooler"].
Proof.
  split; [reflexivity |].
  pose proof (C7_cooler_fan_order home "switch.cooler" eq_refl) as [Hon Hoff].
  split.
  - rewrite Hon. reflexivity.
  - rewrite Hoff. reflexivity.
Defined.

(** C7 as stated fails twice: on "auto" the fan-off command comes before
    the cooler-off command, not after it; and with the fan mode "on" the
    cooler-on command is still accompanied by a fan-on command. *)
Lemma C7_counterexample :
  _fan_mode home = FAN_MODE_AUTO
  /\ trace_of (_async_cooler_turn_off home)
     = [Call SERVICE_TURN_OFF "switch.fan"; Call SERVICE_TURN_OFF "switch.cooler"]
  /\ issued_before (Call SERVICE_TURN_OFF "switch.cooler")
       (Call SERVICE_TURN_OFF "switch.fan")
       (trace_of (_async_cooler_turn_off home)) = false
  /\ _fan_mode home_fan_on = FAN_MODE_ON
  /\ trace_of (_async_cooler_turn_on home_fan_on)
     = [Call SERVICE_TURN_ON "switch.fan"; Call SERVICE_TURN_ON "switch.cooler"].
Proof.
  vm_compute. repeat split.
Qed.

(** ** Switching off *)

(** C5. Setting the mode to OFF while the device is active sets the mode
    and sends the off-command to the heater, the cooler and the
    dehumidifier (each when configured), and to the fan when the fan mode
    is "auto"; the commands sent do not depend on [reverse_cycle]. The
    last conjunct gives the whole trace, in the order of the calls. *)
Theorem C5_off_turns_everything_off :
  forall (hass : Hass) (self : Thermostat),
    _is_device_active hass self = true ->
    let r := async_set_hvac_mode hass HVAC_MODE_OFF self in
    result_of r = Normal tt
    /\ _hvac_mode (self_of r) = Some HVAC_MODE_OFF
    /\ (forall h, heater_entity_id self = Some h ->
                  In (Call SERVICE_TURN_OFF h) (trace_of r))
    /\ (forall k, cooler_entity_id self = Some k ->
                  In (Call SERVICE_TURN_OFF k) (trace_of r))
    /\ (forall d, dryer_entity_id self = Some d ->
                  In (Call SERVICE_TURN_OFF d) (trace_of r))
    /\ (forall f, fan_entity_id self = Some f ->
                  _fan_mode self = FAN_MODE_AUTO ->
                  In (Call SERVICE_TURN_OFF f) (trace_of r))
    /\ (forall rc, trace_of (async_set_hvac_mode hass HVAC_MODE_OFF
                               (set_reverse_cycle rc self))
                   = trace_of r)
    /\ trace_of r
       = (let off (x : option string) : list event :=
            match x with
            | Some e => [Call SERVICE_TURN_OFF e]
            | None => []
            end in
          let auto := String.eqb (_fan_mode self) FAN_MODE_AUTO in
          off (heater_entity_id self)
          ++ (if auto then [EnsureFuture Task_fan_off] else [])
          ++ (if auto then off (fan_entity_id self) else [])
          ++ off (cooler_entity_id self)
          ++ (if auto then off (fan_entity_id self) else [])
          ++ off (dryer_entity_id self)).
Proof.
  intros hass self Hact r. subst r.
  unfold async_set_hvac_mode, result_of, self_of, trace_of.
  unfold_handlers. rewrite is_device_active_any_on in Hact.
  destruct self; cbn in Hact.
  repeat split; intros; cbn in *; subst; crunch;
    try rewrite Hact in *; crunch; auto;
    repeat (rewrite ?in_app_iff; cbn); intuition congruence.
Qed.

Lemma C5_off_turns_everything_off_witness :
  let r := async_set_hvac_mode (heater_on 0) HVAC_MODE_OFF home in
  _is_device_active (heater_on 0) home = true
  /\ result_of r = Normal tt
  /\ _hvac_mode (self_of r) = Some HVAC_MODE_OFF.
Proof.
  split; [reflexivity |].
  pose proof (C5_off_turns_everything_off (heater_on 0) home eq_refl) as H.
  split; [exact (proj1 H) | exact (proj1 (proj2 H))].
Defined.

(** ** Construction *)

(** C10. The constructor takes FAN_ONLY out of the mode list whatever the
    configuration, so no object it builds offers FAN_ONLY; with no fan
    entity it tries to take FAN_ONLY out a second time and the
    [ValueError] of [list.remove] leaves the constructor. With a fan
    entity the constructor succeeds. *)
Theorem C10_fan_only_never_offered :
  forall c : Config,
    (forall t, __init__ c = Normal t -> ~ In HVAC_MODE_FAN_ONLY (hvac_modes t))
    /\ (CONF_FAN c = None -> __init__ c = Raised Py.ValueError)
    /\ (CONF_FAN c <> None -> exists t, __init__ c = Normal t).
Proof.
  intros c. unfold __init__, init_hvac_list, remove_if, hvac_modes.
  destruct (CONF_COOLER c), (CONF_HEATER c), (CONF_FAN c), (CONF_DRYER c);
    cbn; repeat split; intros;
    try match goal with
        | H : Normal _ = Normal _ |- _ => injection H as H; subst; cbn
        end;
    try discriminate; try congruence; try (eexists; reflexivity);
    intuition discriminate.
Qed.

Lemma C10_fan_only_never_offered_witness :
  CONF_FAN home_config <> None
  /\ (exists t, __init__ home_config = Normal t)
  /\ ~ In HVAC_MODE_FAN_ONLY (hvac_modes home).
Proof.
  split; [discriminate |].
  split.
  - apply (proj2 (proj2 (C10_fan_only_never_offered home_config))). discriminate.
  - apply (proj1 (C10_fan_only_never_offered home_config) home). reflexivity.
Defined.

(** ** The minimum-cycle gate *)

Lemma condition_state_too_short (hass : Hass) (id req : string) (st : State) (d : Z) :
  states_get hass id = Some st ->
  (since_last_changed st < d)%Z ->
  condition_state hass (Some id) req (Some d) = false.
Proof.
  intros Hst Hlt. unfold condition_state. rewrite Hst.
  destruct (String.eqb (state st) req); cbn; [| reflexivity].
  apply Z.ltb_ge. lia.
Qed.

Lemma gate_closed_no_command (hass : Hass) (self : Thermostat) (d : Z)
    (id : string) (st : State) :
  min_cycle_duration self = Some d ->
  d <> 0%Z ->
  (_hvac_mode self = Some HVAC_MODE_HEAT /\ heater_entity_id self = Some id)
  \/ (_hvac_mode self = Some HVAC_MODE_COOL /\ cooler_entity_id self = Some id)
  \/ (_hvac_mode self = Some HVAC_MODE_FAN_ONLY /\ fan_entity_id self = Some id)
  \/ (_hvac_mode self = Some HVAC_MODE_DRY /\ dryer_entity_id self = Some id) ->
  states_get hass id = Some st ->
  (since_last_changed st < d)%Z ->
  result_of (_async_control_heating hass None false self) = Normal tt
  /\ trace_of (_async_control_heating hass None false self) = [].
Proof.
  intros Hd Hnz Hmode Hst Hlt.
  assert (Htruthy : negb (Z.eqb d 0) = true)
    by (apply negb_true_iff, Z.eqb_neq; exact Hnz).
  pose proof (fun req => condition_state_too_short hass id req st d Hst Hlt) as Hshort.
  unfold result_of, trace_of. unfold_handlers.
  destruct self; cbn in Hd, Hmode. subst.
  destruct Hmode as [[Hm He] | [[Hm He] | [[Hm He] | [Hm He]]]]; subst;
    destruct _active0, _cur_temp0, _target_temp0;
    repeat (unfold_m; cbn; rewrite ?is_device_active_any_on, ?Htruthy, ?Hshort; cbn);
    auto.
Qed.

Opaque hysteresis.

Lemma forced_is_hysteresis (hass : Hass) (self : Thermostat) (t c : float) :
  _cur_temp self = Some c ->
  _target_temp self = Some t ->
  mode_is self HVAC_MODE_OFF = false ->
  _async_control_heating hass None true self
  = hysteresis hass None None (set_active true self).
Proof.
  intros Hc Ht Hm. unfold _async_control_heating, min_cycle_gate, mode_is in *.
  destruct self; cbn in Hc, Ht, Hm. subst.
  destruct _active0; unfold set_active;
    repeat (unfold_m; cbn; rewrite ?Hm; cbn);
    match goal with
    | |- context [hysteresis ?h ?a ?b ?s] =>
        destruct (hysteresis h a b s) as [[r s'] tr]; reflexivity
    end.
Qed.

Transparent hysteresis.

(** C4. With a minimum cycle duration set, an evaluation that is neither
    forced nor a keep-alive tick returns normally without any command
    when the entity of the current mode has been in its state for less
    than that duration. The forced evaluation skips the gate: it is the
    hysteresis step itself, so in HEAT and COOL it sends the commands the
    thresholds call for. Ten minutes of minimum cycle, two minutes since
    the heater went off, 20.0 degrees against a target of 21.0: nothing
    unforced, heater on when forced. *)
Theorem C4_min_cycle_gate :
  (forall (hass : Hass) (self : Thermostat) (d : Z) (id : string) (st : State),
      min_cycle_duration self = Some d ->
      d <> 0%Z ->
      (_hvac_mode self = Some HVAC_MODE_HEAT /\ heater_entity_id self = Some id)
      \/ (_hvac_mode self = Some HVAC_MODE_COOL /\ cooler_entity_id self = Some id)
      \/ (_hvac_mode self = Some HVAC_MODE_FAN_ONLY /\ fan_entity_id self = Some id)
      \/ (_hvac_mode self = Some HVAC_MODE_DRY /\ dryer_entity_id self = Some id) ->
      states_get hass id = Some st ->
      (since_last_changed st < d)%Z ->
      result_of (_async_control_heating hass None false self) = Normal tt
      /\ trace_of (_async_control_heating hass None false self) = [])
  /\ (forall (hass : Hass) (self : Thermostat) (t c : float),
         _cur_temp self = Some c ->
         _target_temp self = Some t ->
         let too_cold := Py.ge t (PrimFloat.add c (_cold_tolerance self)) in
         let too_hot := Py.ge c (PrimFloat.add t (_hot_tolerance self)) in
         let forced := _async_control_heating hass None true self in
         (mode_is self HVAC_MODE_OFF = false ->
          forced = hysteresis hass None None (set_active true self))
         /\ (forall h, _hvac_mode self = Some HVAC_MODE_HEAT ->
                       heater_entity_id self = Some h ->
                       if _is_device_active hass self
                       then In (Call SERVICE_TURN_OFF h) (trace_of forced)
                            <-> too_hot = true
                       else In (Call SERVICE_TURN_ON h) (trace_of forced)
                            <-> too_cold = true)
         /\ (forall k, _hvac_mode self = Some HVAC_MODE_COOL ->
                       cooler_entity_id self = Some k ->
                       if _is_device_active hass self
                       then In (Call SERVICE_TURN_OFF k) (trace_of forced)
                            <-> too_cold = true
                       else In (Call SERVICE_TURN_ON k) (trace_of forced)
                            <-> too_hot = true))
  /\ (let self := set_cur_temp (Some 20.0%float) home_cycle in
      let hass := all_off 120000000 in
      min_cycle_duration self = Some 600000000%Z
      /\ trace_of (_async_control_heating hass None false self) = []
      /\ result_of (_async_control_heating hass None false self) = Normal tt
      /\ trace_of (_async_control_heating hass None true self)
         = [Call SERVICE_TURN_ON "switch.heater"; EnsureFuture Task_fan_on]).
Proof.
  split; [| split].
  - exact gate_closed_no_command.
  - intros hass self t c Hc Ht too_cold too_hot forced.
    split; [| split].
    + intros Hm. exact (forced_is_hysteresis hass self t c Hc Ht Hm).
    + intros h Hm Hh.
      exact (heat_thresholds hass self None true t c Hc Ht None eq_refl h Hm Hh).
    + intros k Hm Hk.
      exact (cool_thresholds hass self None true t c Hc Ht None eq_refl k Hm Hk).
  - vm_compute. repeat split.
Qed.

Lemma C4_min_cycle_gate_witness :
  let self := set_cur_temp (Some 20.0%float) home_cycle in
  let hass := all_off 120000000 in
  (min_cycle_duration self = Some 600000000%Z
   /\ _hvac_mode self = Some HVAC_MODE_HEAT
   /\ heater_entity_id self = Some "switch.heater"
   /\ states_get hass "switch.heater" = Some (mkState "off" 120000000)
   /\ (120000000 < 600000000)%Z)
  /\ result_of (_async_control_heating hass None false self) = Normal tt
  /\ trace_of (_async_control_heating hass None false self) = [].
Proof.
  split.
  - repeat split.
  - apply (proj1 C4_min_cycle_gate (all_off 120000000)
             (set_cur_temp (Some 20.0%float) home_cycle) 600000000%Z
             "switch.heater" (mkState "off" 120000000)).
    + reflexivity.
    + discriminate.
    + left. split; reflexivity.
    + reflexivity.
    + reflexivity.
Defined.

(** ** Keep-alive ticks *)

(** C2 (what the code does instead). On a keep-alive tick the local
    [active_entity] is never bound, so whenever the evaluation reaches a
    keep-alive branch (the mode is none of OFF, FAN_ONLY and DRY, and no
    turn-off or turn-on condition of the mode matches) reading it for
    the log message raises [UnboundLocalError]: no command is re-issued
    and the evaluation does not complete normally. *)
Theorem C2_keep_alive_raises :
  forall (hass : Hass) (self : Thermostat) (now : Z) (force : bool) (t c : float),
    _cur_temp self = Some c ->
    _target_temp self = Some t ->
    mode_is self HVAC_MODE_OFF = false ->
    mode_is self HVAC_MODE_FAN_ONLY = false ->
    mode_is self HVAC_MODE_DRY = false ->
    let too_cold := Py.ge t (PrimFloat.add c (_cold_tolerance self)) in
    let too_hot := Py.ge c (PrimFloat.add t (_hot_tolerance self)) in
    (if _is_device_active hass self
     then too_cold && mode_is self HVAC_MODE_COOL = false
          /\ too_hot && mode_is self HVAC_MODE_HEAT = false
     else too_hot && mode_is self HVAC_MODE_COOL = false
          /\ too_cold && mode_is self HVAC_MODE_HEAT = false) ->
    result_of (_async_control_heating hass (Some now) force self)
    = Raised (Py.UnboundLocalError "active_entity")
    /\ trace_of (_async_control_heating hass (Some now) force self) = [].
Proof.
  intros hass self now force t c Hc Ht Hoff Hfan Hdry too_cold too_hot Hno.
  subst too_cold too_hot.
  unfold Py.ge, result_of, trace_of in *. unfold_handlers.
  rewrite is_device_active_any_on in Hno.
  destruct self; cbn in Hc, Ht, Hoff, Hfan, Hdry, Hno. subst.
  destruct (any_on hass cooler_entity_id0 heater_entity_id0 dryer_entity_id0) eqn:Hany;
    destruct Hno as [Hn1 Hn2];
    destruct _active0, force;
    repeat (unfold_m; cbn;
            rewrite ?is_device_active_any_on, ?Hany, ?Hoff, ?Hfan, ?Hdry,
              ?Hn1, ?Hn2, ?andb_false_r; cbn);
    auto.
Qed.

Lemma C2_keep_alive_raises_witness :
  let self := set_cur_temp (Some 21.0%float) home in
  let hass := heater_on 0 in
  (_hvac_mode self = Some HVAC_MODE_HEAT
   /\ _is_device_active hass self = true
   /\ Py.ge 21.0%float (PrimFloat.add 21.0%float 0.3%float) = false)
  /\ result_of (_async_control_heating hass (Some 0%Z) false self)
     = Raised (Py.UnboundLocalError "active_entity")
  /\ trace_of (_async_control_heating hass (Some 0%Z) false self) = [].
Proof.
  split.
  - repeat split.
  - apply (C2_keep_alive_raises (heater_on 0) (set_cur_temp (Some 21.0%float) home)
             0%Z false 21.0%float 21.0%float);
      try reflexivity.
    split; reflexivity.
Defined.

(** ** Start-up defaults *)

(** C3 (what the code does instead). With no target configured and none
    to restore, the chain of [if]s ends in an [if]/[else] on DRY whose
    [else] overwrites the value chosen for COOL and FAN_ONLY: the target
    becomes the minimum temperature for every mode, COOL and FAN_ONLY
    included (with an old state and mode DRY it becomes the raw
    [_min_temp], which may be [None]). *)
Theorem C3_default_target_is_min_temp :
  forall (super_min_temp super_max_temp : float) (self : Thermostat)
         (old_state : option OldState),
    _target_temp self = None ->
    match old_state with
    | Some old => attr_temperature old = None
    | None => True
    end ->
    _target_temp (self_of (async_added_to_hass super_min_temp super_max_temp
                             old_state self))
    = if mode_is self HVAC_MODE_DRY && negb (Py.is_none old_state)
      then _min_temp self
      else Some (min_temp super_min_temp self).
Proof.
  intros smin smax self old Ht Hold.
  unfold async_added_to_hass, self_of, mode_is, min_temp, max_temp.
  destruct self; cbn in Ht. subst.
  destruct old as [old |]; [destruct old; cbn in Hold; subst |];
    crunch; auto.
Qed.

Lemma C3_default_target_is_min_temp_witness :
  _target_temp home_cool_unset = None
  /\ _hvac_mode home_cool_unset = Some HVAC_MODE_COOL
  /\ _target_temp (self_of (async_added_to_hass 7.0%float 35.0%float None
                              home_cool_unset))
     = Some 7.0%float.
Proof.
  split; [reflexivity |].
  split; [reflexivity |].
  exact (C3_default_target_is_min_temp 7.0%float 35.0%float home_cool_unset None
           eq_refl I).
Defined.

(** * Further properties of the code *)

(** ** The evaluation as a whole *)

(** X1. An evaluation changes nothing of the thermostat but [_active]:
    it sets it when it was unset and both temperatures are present, and
    never clears it. *)
Theorem control_heating_only_activates :
  forall (hass : Hass) (time : option Z) (force : bool) (self : Thermostat),
    let r := _async_control_heating hass time force self in
    self_of r
    = (if negb (_active self)
          && negb (Py.is_none (_cur_temp self) || Py.is_none (_target_temp self))
       then set_active true self else self)
    /\ _active (self_of r)
       = _active self
         || (negb (Py.is_none (_cur_temp self))
             && negb (Py.is_none (_target_temp self))).
Proof.
  intros hass time force self r.
  assert (E : self_of r
              = (if negb (_active self)
                    && negb (Py.is_none (_cur_temp self)
                             || Py.is_none (_target_temp self))
                 then set_active true self else self)).
  { subst r. unfold _async_control_heating.
    rewrite self_of_bind_get, self_of_when_modify; [reflexivity |].
    repeat first [apply readonly_min_cycle_gate | apply readonly_hysteresis
                 | readonly_step]. }
  split; [exact E |]. rewrite E.
  destruct (_active self) eqn:Ha, (_cur_temp self), (_target_temp self);
    cbn; auto.
Qed.

(** The five modes, or none of them. *)
Lemma mode_cases (m : option string) :
  m = Some HVAC_MODE_OFF \/ m = Some HVAC_MODE_HEAT \/ m = Some HVAC_MODE_COOL
  \/ m = Some HVAC_MODE_FAN_ONLY \/ m = Some HVAC_MODE_DRY
  \/ (forall x, In x [HVAC_MODE_OFF; HVAC_MODE_HEAT; HVAC_MODE_COOL;
                     HVAC_MODE_FAN_ONLY; HVAC_MODE_DRY] ->
                match m with
                | Some m' => String.eqb m' x
                | None => false
                end = false).
Proof.
  destruct m as [m |].
  - destruct (String.eqb_spec m HVAC_MODE_OFF); [subst; auto |].
    destruct (String.eqb_spec m HVAC_MODE_HEAT); [subst; auto |].
    destruct (String.eqb_spec m HVAC_MODE_COOL); [subst; auto |].
    destruct (String.eqb_spec m HVAC_MODE_FAN_ONLY); [subst; auto 6 |].
    destruct (String.eqb_spec m HVAC_MODE_DRY); [subst; auto 6 |].
    do 5 right. intros x Hx. apply String.eqb_neq.
    cbn in Hx. intuition congruence.
  - do 5 right. reflexivity.
Qed.

Ltac events_by_cases e :=
  let HIn := fresh "HIn" in
  intros HIn; repeat (destruct HIn as [HIn | HIn]; [subst e; cbn |]);
  try contradiction; auto.

Section Events.

Variable hass : Hass.
Variables (time : option Z) (force : bool).
Variable self : Thermostat.
Variable e : event.
Hypothesis HIn : In e (trace_of (_async_control_heating hass time force self)).

Lemma heat_events :
  _hvac_mode self = Some HVAC_MODE_HEAT ->
  match e with
  | Call _ id => heater_entity_id self = Some id
  | EnsureFuture _ => True
  end.
Proof.
  intros Hm. revert HIn. unfold trace_of. unfold_handlers.
  destruct self; cbn in Hm |- *; subst.
  destruct _active0, _cur_temp0, _target_temp0, force, time; crunch;
    events_by_cases e.
Qed.

Lemma cool_events :
  _hvac_mode self = Some HVAC_MODE_COOL ->
  match e with
  | Call _ id => cooler_entity_id self = Some id \/ fan_entity_id self = Some id
  | EnsureFuture _ => False
  end.
Proof.
  intros Hm. revert HIn. unfold trace_of. unfold_handlers.
  destruct self; cbn in Hm |- *; subst.
  destruct _active0, _cur_temp0, _target_temp0, force, time; crunch;
    events_by_cases e.
Qed.

Lemma fan_only_events :
  _hvac_mode self = Some HVAC_MODE_FAN_ONLY ->
  match e with
  | Call _ id => fan_entity_id self = Some id
  | EnsureFuture _ => False
  end.
Proof.
  intros Hm. revert HIn. unfold trace_of. unfold_handlers.
  destruct self; cbn in Hm |- *; subst.
  destruct _active0, _cur_temp0, _target_temp0, force, time; crunch;
    events_by_cases e.
Qed.

Lemma dry_events :
  _hvac_mode self = Some HVAC_MODE_DRY ->
  match e with
  | Call _ id => dryer_entity_id self = Some id
  | EnsureFuture _ => False
  end.
Proof.
  intros Hm. revert HIn. unfold trace_of. unfold_handlers.
  destruct self; cbn in Hm |- *; subst.
  destruct _active0, _cur_temp0, _target_temp0, force, time; crunch;
    events_by_cases e.
Qed.

Lemma no_mode_no_events :
  _hvac_mode self = Some HVAC_MODE_OFF
  \/ (forall x, In x [HVAC_MODE_OFF; HVAC_MODE_HEAT; HVAC_MODE_COOL;
                     HVAC_MODE_FAN_ONLY; HVAC_MODE_DRY] ->
                mode_is self x = false) ->
  False.
Proof.
  intros Hm. revert HIn. unfold trace_of. unfold_handlers.
  destruct self; cbn in Hm |- *.
  destruct Hm as [-> | Hother].
  - destruct _active0, _cur_temp0, _target_temp0, force, time; crunch;
      events_by_cases e.
  - pose proof (Hother HVAC_MODE_OFF ltac:(cbn; auto)) as H1.
    pose proof (Hother HVAC_MODE_HEAT ltac:(cbn; auto)) as H2.
    pose proof (Hother HVAC_MODE_COOL ltac:(cbn; auto)) as H3.
    pose proof (Hother HVAC_MODE_FAN_ONLY ltac:(cbn; auto 6)) as H4.
    pose proof (Hother HVAC_MODE_DRY ltac:(cbn; auto 6)) as H5.
    clear Hother.
    destruct _active0, _cur_temp0, _target_temp0, force, time,
      (Py.opt_duration_truthy min_cycle_duration0) eqn:Hd,
      (any_on hass cooler_entity_id0 heater_entity_id0 dryer_entity_id0) eqn:Hany;
      repeat (unfold_m; cbn;
              rewrite ?is_device_active_any_on, ?Hd, ?Hany, ?H1, ?H2, ?H3, ?H4, ?H5,
                ?andb_false_r; cbn);
      intros HIn'; try contradiction.
Qed.

End Events.

(** X2. One actuator path per mode: whatever the trigger, an evaluation
    calls only the heater in HEAT, only the cooler and the fan in COOL,
    only the fan in FAN_ONLY and only the dehumidifier in DRY; it
    schedules a fan task only in HEAT; in any other mode it sends
    nothing. *)
Theorem control_heating_mode_exclusive :
  forall (hass : Hass) (time : option Z) (force : bool) (self : Thermostat)
         (e : event),
    In e (trace_of (_async_control_heating hass time force self)) ->
    match e with
    | Call _ id =>
        (_hvac_mode self = Some HVAC_MODE_HEAT /\ heater_entity_id self = Some id)
        \/ (_hvac_mode self = Some HVAC_MODE_COOL
            /\ (cooler_entity_id self = Some id \/ fan_entity_id self = Some id))
        \/ (_hvac_mode self = Some HVAC_MODE_FAN_ONLY /\ fan_entity_id self = Some id)
        \/ (_hvac_mode self = Some HVAC_MODE_DRY /\ dryer_entity_id self = Some id)
    | EnsureFuture _ => _hvac_mode self = Some HVAC_MODE_HEAT
    end.
Proof.
  intros hass time force self e HIn.
  destruct (mode_cases (_hvac_mode self)) as [Hm | [Hm | [Hm | [Hm | [Hm | Hm]]]]].
  - exfalso. apply (no_mode_no_events hass time force self e HIn). left. exact Hm.
  - pose proof (heat_events hass time force self e HIn Hm) as H.
    destruct e; auto.
  - pose proof (cool_events hass time force self e HIn Hm) as H.
    destruct e; [auto | contradiction].
  - pose proof (fan_only_events hass time force self e HIn Hm) as H.
    destruct e; [auto 6 | contradiction].
  - pose proof (dry_events hass time force self e HIn Hm) as H.
    destruct e; [auto 6 | contradiction].
  - exfalso. apply (no_mode_no_events hass time force self e HIn). right. exact Hm.
Qed.

Lemma control_heating_mode_exclusive_witness :
  let self := set_cur_temp (Some 20.0%float) home in
  In (Call SERVICE_TURN_ON "switch.heater")
     (trace_of (_async_control_heating (all_off 0) None false self))
  /\ ((_hvac_mode self = Some HVAC_MODE_HEAT
       /\ heater_entity_id self = Some "switch.heater")
      \/ (_hvac_mode self = Some HVAC_MODE_COOL
          /\ (cooler_entity_id self = Some "switch.heater"
              \/ fan_entity_id self = Some "switch.heater"))
      \/ (_hvac_mode self = Some HVAC_MODE_FAN_ONLY
          /\ fan_entity_id self = Some "switch.heater")
      \/ (_hvac_mode self = Some HVAC_MODE_DRY
          /\ dryer_entity_id self = Some "switch.heater")).
Proof.
  split.
  - left. reflexivity.
  - apply (control_heating_mode_exclusive (all_off 0) None false
             (set_cur_temp (Some 20.0%float) home)
             (Call SERVICE_TURN_ON "switch.heater")).
    left. reflexivity.
Defined.

Lemma hysteresis_ignores_local (hass : Hass) (ae ae' : local (option string))
    (self : Thermostat) :
  hysteresis hass None ae self = hysteresis hass None ae' self.
Proof. reflexivity. Qed.



(** X4. A neutral fan or dehumidifier follows the mode alone: in FAN_ONLY
    with [fan_behavior] neutral every evaluation that passes the gate
    sends exactly one fan-on command, and in DRY with [dryer_behavior]
    neutral exactly one dehumidifier-on command, whatever the
    temperatures, the state of the devices and the trigger. *)
Theorem neutral_follows_mode :
  forall (hass : Hass) (self : Thermostat) (time : option Z) (force : bool)
         (t c : float) (ae : local (option string)) (id : string),
    _cur_temp self = Some c ->
    _target_temp self = Some t ->
    result_of (min_cycle_gate hass time force self) = Normal (Proceed ae) ->
    (_hvac_mode self = Some HVAC_MODE_FAN_ONLY
     /\ fan_behavior self = FAN_MODE_NEUTRAL /\ fan_entity_id self = Some id)
    \/ (_hvac_mode self = Some HVAC_MODE_DRY
        /\ dryer_behavior self = DRYER_MODE_NEUTRAL /\ dryer_entity_id self = Some id) ->
    _async_control_heating hass time force self
    = (Normal tt, set_active true self, [Call SERVICE_TURN_ON id]).
Proof.
  intros hass self time force t c ae id Hc Ht Hg Hm.
  unfold result_of in Hg. unfold_handlers.
  destruct self; cbn in Hc, Ht, Hm. subst.
  destruct Hm as [(-> & Hb & ->) | (-> & Hb & ->)]; cbn in Hb; subst;
    destruct _active0, force, time; crunch; reflexivity.
Qed.

Lemma neutral_follows_mode_witness :
  let self := set_hvac_mode (Some HVAC_MODE_DRY) (set_cur_temp (Some 30.0%float) home) in
  (_cur_temp self = Some 30.0%float
   /\ _hvac_mode self = Some HVAC_MODE_DRY
   /\ dryer_behavior self = DRYER_MODE_NEUTRAL)
  /\ _async_control_heating (all_off 0) (Some 0%Z) false self
     = (Normal tt, set_active true self, [Call SERVICE_TURN_ON "switch.dryer"]).
Proof.
  split.
  - repeat split.
  - apply (neutral_follows_mode (all_off 0)
             (set_hvac_mode (Some HVAC_MODE_DRY) (set_cur_temp (Some 30.0%float) home))
             (Some 0%Z) false 21.0%float 30.0%float None "switch.dryer");
      try reflexivity.
    right. repeat split.
Defined.



(** ** More on the minimum-cycle gate *)

Opaque hysteresis.

(** X6. The gate is open when the entity of the mode is in the state the
    aggregate "device active" stands for ("on" when active, "off" when
    not) and has been for longer than the minimum cycle: the unforced
    evaluation then does exactly what the forced one does. *)
Theorem open_gate_unforced_is_forced :
  forall (hass : Hass) (self : Thermostat) (d : Z) (id : string) (st : State),
    min_cycle_duration self = Some d ->
    (_hvac_mode self = Some HVAC_MODE_HEAT /\ heater_entity_id self = Some id)
    \/ (_hvac_mode self = Some HVAC_MODE_COOL /\ cooler_entity_id self = Some id)
    \/ (_hvac_mode self = Some HVAC_MODE_FAN_ONLY /\ fan_entity_id self = Some id)
    \/ (_hvac_mode self = Some HVAC_MODE_DRY /\ dryer_entity_id self = Some id) ->
    states_get hass id = Some st ->
    state st = (if _is_device_active hass self then STATE_ON else HVAC_MODE_OFF) ->
    (d < since_last_changed st)%Z ->
    _async_control_heating hass None false self
    = _async_control_heating hass None true self.
Proof.
  intros hass self d id st Hd Hmode Hst Hstate Hlt.
  assert (Hopen : condition_state hass (Some id)
                    (if _is_device_active hass self then STATE_ON else HVAC_MODE_OFF)
                    (Some d) = true).
  { unfold condition_state. rewrite Hst, Hstate, String.eqb_refl. cbn.
    apply Z.ltb_lt. exact Hlt. }
  clear Hst Hstate Hlt.
  unfold _async_control_heating, min_cycle_gate, mode_is.
  rewrite is_device_active_any_on in Hopen.
  destruct self; cbn in Hd, Hmode, Hopen. subst.
  destruct Hmode as [[-> ->] | [[-> ->] | [[-> ->] | [-> ->]]]];
    destruct _active0, _cur_temp0, _target_temp0, (Z.eqb d 0) eqn:Hz;
    repeat (unfold_m; cbn;
            rewrite ?is_device_active_any_on, ?Hz, ?Hopen; cbn);
    rewrite ?(hysteresis_ignores_local hass (Some _) None);
    try match goal with
        | |- context [hysteresis ?h ?a ?b ?s] =>
            destruct (hysteresis h a b s) as [[? ?] ?]
        end;
    reflexivity.
Qed.

Lemma open_gate_unforced_is_forced_witness :
  let self := set_cur_temp (Some 20.0%float) home_cycle in
  let hass := all_off 900000000 in
  (min_cycle_duration self = Some 600000000%Z
   /\ states_get hass "switch.heater" = Some (mkState "off" 900000000)
   /\ (600000000 < 900000000)%Z)
  /\ _async_control_heating hass None false self
     = _async_control_heating hass None true self.
Proof.
  split.
  - repeat split.
  - apply (open_gate_unforced_is_forced (all_off 900000000)
             (set_cur_temp (Some 20.0%float) home_cycle) 600000000%Z
             "switch.heater" (mkState "off" 900000000)).
    + reflexivity.
    + left. split; reflexivity.
    + reflexivity.
    + reflexivity.
    + reflexivity.
Defined.

(** X7. No minimum cycle, or one of zero length (a [timedelta] of zero is
    false), means no gate: the unforced evaluation does exactly what the
    forced one does, whatever the mode and the states. *)
Theorem no_min_cycle_unforced_is_forced :
  forall (hass : Hass) (self : Thermostat),
    min_cycle_duration self = None \/ min_cycle_duration self = Some 0%Z ->
    _async_control_heating hass None false self
    = _async_control_heating hass None true self.
Proof.
  intros hass self Hd.
  unfold _async_control_heating, min_cycle_gate, mode_is.
  destruct self; cbn in Hd.
  destruct Hd as [Hd | Hd]; subst;
    destruct _active0, _cur_temp0, _target_temp0;
    repeat (unfold_m; cbn; try case_cond); reflexivity.
Qed.

Transparent hysteresis.

Lemma no_min_cycle_unforced_is_forced_witness :
  min_cycle_duration home = None
  /\ _async_control_heating (all_off 0) None false home
     = _async_control_heating (all_off 0) None true home.
Proof.
  split; [reflexivity |].
  apply (no_min_cycle_unforced_is_forced (all_off 0) home).
  left. reflexivity.
Defined.

(** X8. With a minimum cycle set, the gate compares the entity of the
    mode with the aggregate "device active": when that entity is not in
    the state the aggregate stands for (the cooler is "off" while the
    heater is "on", say), an unforced evaluation sends nothing, however
    long the entity has been in its state. *)
Theorem mismatched_entity_closes_gate :
  forall (hass : Hass) (self : Thermostat) (d : Z) (id : string) (st : State),
    min_cycle_duration self = Some d ->
    d <> 0%Z ->
    (_hvac_mode self = Some HVAC_MODE_HEAT /\ heater_entity_id self = Some id)
    \/ (_hvac_mode self = Some HVAC_MODE_COOL /\ cooler_entity_id self = Some id)
    \/ (_hvac_mode self = Some HVAC_MODE_FAN_ONLY /\ fan_entity_id self = Some id)
    \/ (_hvac_mode self = Some HVAC_MODE_DRY /\ dryer_entity_id self = Some id) ->
    states_get hass id = Some st ->
    state st <> (if _is_device_active hass self then STATE_ON else HVAC_MODE_OFF) ->
    result_of (_async_control_heating hass None false self) = Normal tt
    /\ trace_of (_async_control_heating hass None false self) = [].
Proof.
  intros hass self d id st Hd Hnz Hmode Hst Hstate.
  assert (Htruthy : negb (Z.eqb d 0) = true)
    by (apply negb_true_iff, Z.eqb_neq; exact Hnz).
  assert (Hshut : condition_state hass (Some id)
                    (if _is_device_active hass self then STATE_ON else HVAC_MODE_OFF)
                    (Some d) = false).
  { unfold condition_state. rewrite Hst.
    apply String.eqb_neq in Hstate. rewrite Hstate. reflexivity. }
  clear Hst Hstate.
  unfold result_of, trace_of. unfold_handlers.
  rewrite is_device_active_any_on in Hshut.
  destruct self; cbn in Hd, Hmode, Hshut. subst.
  destruct Hmode as [[-> ->] | [[-> ->] | [[-> ->] | [-> ->]]]];
    destruct _active0, _cur_temp0, _target_temp0;
    repeat (unfold_m; cbn;
            rewrite ?is_device_active_any_on, ?Htruthy, ?Hshut; cbn);
    auto.
Qed.

Lemma mismatched_entity_closes_gate_witness :
  let self := set_hvac_mode (Some HVAC_MODE_COOL)
                (set_cur_temp (Some 30.0%float) home_cycle) in
  let hass := heater_on 900000000 in
  (_hvac_mode self = Some HVAC_MODE_COOL
   /\ _is_device_active hass self = true
   /\ states_get hass "switch.cooler" = Some (mkState "off" 900000000))
  /\ trace_of (_async_control_heating hass None false self) = [].
Proof.
  split.
  - repeat split.
  - apply (mismatched_entity_closes_gate (heater_on 900000000)
             (set_hvac_mode (Some HVAC_MODE_COOL)
                (set_cur_temp (Some 30.0%float) home_cycle))
             600000000%Z "switch.cooler" (mkState "off" 900000000)).
    + reflexivity.
    + discriminate.
    + right. left. split; reflexivity.
    + reflexivity.
    + discriminate.
Defined.

(** ** Mode changes *)

Arguments Py.list_count : simpl never.
Opaque _async_control_heating.

Ltac unfold_requests :=
  unfold async_set_hvac_mode, async_set_temperature, async_set_preset_mode,
    rc_absent,
    _async_heater_turn_on, _async_heater_turn_off,
    _async_cooler_turn_on, _async_cooler_turn_off,
    _async_fan_turn_on, _async_fan_turn_off,
    _async_dryer_turn_on, _async_dryer_turn_off in *.

(** Name the forced evaluation a request ends with, together with what
    is known of its events and of the state it leaves. *)
Ltac name_evaluation events :=
  match goal with
  | |- context [_async_control_heating ?h ?t ?f ?s] =>
      let Hev := fresh "Hev" in
      let Hself := fresh "Hself" in
      pose proof (fun e HIn => events h t f s e HIn) as Hev;
      pose proof (control_heating_self h t f s) as Hself;
      unfold trace_of, self_of in Hev, Hself;
      destruct (_async_control_heating h t f s) as [[? ?] ?];
      cbn in Hev, Hself
  end.

(** X9. Entering HEAT honours the reverse-cycle exemption of the cooler:
    with "cooler" listed in [reverse_cycle] no cooler-off command is
    sent (the cooler having an entity id of its own); with "cooler" not
    listed and a device active, the cooler-off command is sent. *)
Theorem heat_entry_reverse_cycle :
  forall (hass : Hass) (self : Thermostat) (k : string),
    cooler_entity_id self = Some k ->
    heater_entity_id self <> Some k ->
    dryer_entity_id self <> Some k ->
    let tr := trace_of (async_set_hvac_mode hass HVAC_MODE_HEAT self) in
    (rc_absent self REVERSE_CYCLE_IS_COOLER = false ->
     ~ In (Call SERVICE_TURN_OFF k) tr)
    /\ (rc_absent self REVERSE_CYCLE_IS_COOLER = true ->
        _is_device_active hass self = true ->
        In (Call SERVICE_TURN_OFF k) tr).
Proof.
  intros hass self k Hk Hh Hd tr. subst tr.
  rewrite is_device_active_any_on. unfold trace_of. unfold_requests.
  destruct self; cbn in Hk, Hh, Hd |- *. subst.
  split.
  - intros Hrc.
    repeat (unfold_m; cbn; rewrite ?is_device_active_any_on, ?Hrc; cbn;
            try case_cond);
      name_evaluation heat_events;
      rewrite ?in_app_iff; cbn;
      intros HIn; repeat (destruct HIn as [HIn | HIn]);
      try contradiction; try congruence;
      try (specialize (Hev _ HIn eq_refl); cbn in Hev; congruence).
  - intros Hrc Hact.
    repeat (unfold_m; cbn; rewrite ?is_device_active_any_on, ?Hrc, ?Hact; cbn;
            try case_cond);
      name_evaluation heat_events;
      try discriminate; rewrite ?in_app_iff; cbn; auto 10.
Qed.

Lemma heat_entry_reverse_cycle_witness :
  let self := set_reverse_cycle [REVERSE_CYCLE_IS_COOLER]
                (set_hvac_mode (Some HVAC_MODE_COOL)
                   (set_cur_temp (Some 25.0%float) home)) in
  let hass := obey_event (Call SERVICE_TURN_ON "switch.cooler") (all_off 0) in
  (cooler_entity_id self = Some "switch.cooler"
   /\ rc_absent self REVERSE_CYCLE_IS_COOLER = false
   /\ _is_device_active hass self = true)
  /\ ~ In (Call SERVICE_TURN_OFF "switch.cooler")
          (trace_of (async_set_hvac_mode hass HVAC_MODE_HEAT self)).
Proof.
  split.
  - repeat split.
  - apply (proj1 (heat_entry_reverse_cycle
                    (obey_event (Call SERVICE_TURN_ON "switch.cooler") (all_off 0))
                    (set_reverse_cycle [REVERSE_CYCLE_IS_COOLER]
                       (set_hvac_mode (Some HVAC_MODE_COOL)
                          (set_cur_temp (Some 25.0%float) home)))
                    "switch.cooler" eq_refl
                    ltac:(discriminate) ltac:(discriminate))).
    reflexivity.
Defined.

(** X10. A mode request outside the five modes changes nothing and sends
    nothing. A request for one of the five is taken whether or not the
    mode is offered in [hvac_modes] (FAN_ONLY never is): afterwards the
    mode is the requested one. *)
Theorem set_hvac_mode_result :
  forall (hass : Hass) (self : Thermostat) (hvac_mode : string),
    (In hvac_mode [HVAC_MODE_HEAT; HVAC_MODE_COOL; HVAC_MODE_FAN_ONLY;
                   HVAC_MODE_DRY; HVAC_MODE_OFF] ->
     _hvac_mode (self_of (async_set_hvac_mode hass hvac_mode self)) = Some hvac_mode)
    /\ (~ In hvac_mode [HVAC_MODE_HEAT; HVAC_MODE_COOL; HVAC_MODE_FAN_ONLY;
                        HVAC_MODE_DRY; HVAC_MODE_OFF] ->
        async_set_hvac_mode hass hvac_mode self = (Normal tt, self, [])).
Proof.
  intros hass self m. split.
  - intros HIn. unfold self_of. unfold_requests.
    destruct self.
    cbn in HIn.
    destruct HIn as [<- | [<- | [<- | [<- | [<- | []]]]]];
      repeat (unfold_m; cbn; rewrite ?is_device_active_any_on; cbn;
              try case_cond);
      try reflexivity;
      name_evaluation heat_events;
      destruct Hself as [-> | ->]; reflexivity.
  - intros Hout. unfold async_set_hvac_mode.
    cbn in Hout.
    destruct (String.eqb_spec m HVAC_MODE_HEAT); [exfalso; apply Hout; subst; auto 6 |].
    destruct (String.eqb_spec m HVAC_MODE_COOL); [exfalso; apply Hout; subst; auto 6 |].
    destruct (String.eqb_spec m HVAC_MODE_FAN_ONLY); [exfalso; apply Hout; subst; auto 6 |].
    destruct (String.eqb_spec m HVAC_MODE_DRY); [exfalso; apply Hout; subst; auto 6 |].
    destruct (String.eqb_spec m HVAC_MODE_OFF); [exfalso; apply Hout; subst; auto 6 |].
    reflexivity.
Qed.

Lemma set_hvac_mode_result_witness :
  ~ In HVAC_MODE_FAN_ONLY (hvac_modes home)
  /\ _hvac_mode (self_of (async_set_hvac_mode (all_off 0) HVAC_MODE_FAN_ONLY home))
     = Some HVAC_MODE_FAN_ONLY.
Proof.
  split.
  - cbn. intuition discriminate.
  - apply (proj1 (set_hvac_mode_result (all_off 0) home HVAC_MODE_FAN_ONLY)).
    cbn. auto.
Defined.

(** ** Setpoint and presets *)

(** X11. [async_set_temperature] without a temperature does nothing;
    with one, the target is that temperature afterwards (also when the
    forced evaluation raises), and nothing else of the thermostat changes
    but [_active]. *)
Theorem set_temperature_result :
  forall (hass : Hass) (self : Thermostat),
    async_set_temperature hass None self = (Normal tt, self, [])
    /\ (forall v : float,
           let s' := self_of (async_set_temperature hass (Some v) self) in
           s' = set_target_temp (Some v) self
           \/ s' = set_active true (set_target_temp (Some v) self)).
Proof.
  intros hass self. split; [reflexivity |].
  intros v s'. subst s'. unfold async_set_temperature.
  rewrite self_of_bind_modify. apply control_heating_self.
Qed.

(** X12. A setpoint given while away is lost on return: AWAY, then
    [async_set_temperature(v)], then NONE leaves the target that was set
    before going away. *)
Theorem away_setpoint_is_lost :
  forall (hass1 hass2 hass3 : Hass) (self : Thermostat) (v : float),
    _is_away self = false ->
    let s1 := self_of (async_set_preset_mode hass1 PRESET_AWAY self) in
    let s2 := self_of (async_set_temperature hass2 (Some v) s1) in
    let s3 := self_of (async_set_preset_mode hass3 PRESET_NONE s2) in
    _target_temp s2 = Some v
    /\ _target_temp s3 = _target_temp self
    /\ _is_away s3 = false.
Proof.
  intros hass1 hass2 hass3 self v Haway s1 s2 s3.
  assert (H1 : _saved_target_temp s1 = _target_temp self /\ _is_away s1 = true).
  { subst s1. destruct (preset_away_self hass1 self Haway) as [E | E];
      rewrite E; split; reflexivity. }
  destruct H1 as [Hsaved Ha1].
  assert (H2 : _target_temp s2 = Some v
               /\ _saved_target_temp s2 = _target_temp self /\ _is_away s2 = true).
  { subst s2. unfold async_set_temperature. rewrite self_of_bind_modify.
    destruct (control_heating_self hass2 None true (set_target_temp (Some v) s1))
      as [E | E]; rewrite E; cbn; auto. }
  destruct H2 as (Ht2 & Hs2 & Ha2).
  split; [exact Ht2 |].
  subst s3. destruct (preset_none_self hass3 s2 Ha2) as [E | E];
    rewrite E; cbn; auto.
Qed.

Lemma away_setpoint_is_lost_witness :
  let self := set_cur_temp (Some 20.0%float) home in
  let s1 := self_of (async_set_preset_mode (all_off 0) PRESET_AWAY self) in
  let s2 := self_of (async_set_temperature (all_off 0) (Some 18.5%float) s1) in
  let s3 := self_of (async_set_preset_mode (all_off 0) PRESET_NONE s2) in
  _is_away self = false
  /\ _target_temp s2 = Some 18.5%float
  /\ _target_temp s3 = Some 21.0%float.
Proof.
  split; [reflexivity |].
  pose proof (away_setpoint_is_lost (all_off 0) (all_off 0) (all_off 0)
                (set_cur_temp (Some 20.0%float) home) 18.5%float eq_refl) as H.
  split; [exact (proj1 H) | exact (proj1 (proj2 H))].
Defined.

Transparent _async_control_heating.

(** X13. The preset AWAY is taken also when no away temperature is
    configured: the target becomes [None], and on an active thermostat
    that is not OFF the forced evaluation raises [TypeError] on
    comparing it, having sent nothing. *)
Theorem away_without_away_temp_raises :
  forall (hass : Hass) (self : Thermostat),
    _is_away self = false ->
    _away_temp self = None ->
    _active self = true ->
    mode_is self HVAC_MODE_OFF = false ->
    let r := async_set_preset_mode hass PRESET_AWAY self in
    result_of r = Raised Py.TypeError
    /\ trace_of r = []
    /\ _target_temp (self_of r) = None
    /\ _is_away (self_of r) = true.
Proof.
  intros hass self Haway Htemp Hact Hoff r. subst r.
  unfold result_of, trace_of, self_of, async_set_preset_mode.
  unfold_handlers.
  destruct self; cbn in Haway, Htemp, Hact, Hoff. subst.
  destruct _cur_temp0; crunch; auto.
Qed.

Lemma away_without_away_temp_raises_witness :
  let self := set_active true (set_cur_temp (Some 20.0%float) home_no_away) in
  (_is_away self = false /\ _away_temp self = None /\ _active self = true)
  /\ result_of (async_set_preset_mode (all_off 0) PRESET_AWAY self)
     = Raised Py.TypeError.
Proof.
  split.
  - repeat split.
  - exact (proj1 (away_without_away_temp_raises (all_off 0)
                    (set_active true (set_cur_temp (Some 20.0%float) home_no_away))
                    eq_refl eq_refl eq_refl eq_refl)).
Defined.

(** ** Start-up *)

(** X14. After [async_added_to_hass] the mode is always set: it is the
    configured initial mode when there is one, else the state of the
    restored old state when that is not empty, else OFF. *)
Theorem startup_mode :
  forall (super_min_temp super_max_temp : float) (self : Thermostat)
         (old_state : option OldState),
    let s' := self_of (async_added_to_hass super_min_temp super_max_temp
                         old_state self) in
    Py.opt_str_truthy (_hvac_mode s') = true
    /\ _hvac_mode s'
       = if Py.opt_str_truthy (_hvac_mode self) then _hvac_mode self
         else match old_state with
              | Some old =>
                  if Py.opt_str_truthy (Some (old_state_state old))
                  then Some (old_state_state old)
                  else Some HVAC_MODE_OFF
              | None => Some HVAC_MODE_OFF
              end.
Proof.
  intros smin smax self old s'. subst s'.
  unfold async_added_to_hass, self_of, mode_is, min_temp, max_temp.
  destruct self.
  destruct old as [[temp preset st] |]; crunch; auto.
Qed.

(** X15. A configured target temperature is kept at start-up, and an
    unset one is taken from the temperature of the old state when that
    has one. *)
Theorem startup_target_precedence :
  forall (super_min_temp super_max_temp : float) (self : Thermostat)
         (old_state : option OldState),
    let s' := self_of (async_added_to_hass super_min_temp super_max_temp
                         old_state self) in
    (forall v, _target_temp self = Some v -> _target_temp s' = Some v)
    /\ (forall old v,
           _target_temp self = None ->
           old_state = Some old ->
           attr_temperature old = Some v ->
           _target_temp s' = Some v).
Proof.
  intros smin smax self old s'. subst s'.
  unfold async_added_to_hass, self_of, mode_is, min_temp, max_temp.
  destruct self. split.
  - intros v Hv. cbn in Hv. subst.
    destruct old as [[temp preset st] |]; crunch; auto.
  - intros o v Ht Ho Hv. cbn in Ht. subst. destruct o as [temp preset st].
    cbn in Hv. subst. crunch; auto.
Qed.

Lemma startup_target_precedence_witness :
  let old := mkOldState (Some 19.5%float) None HVAC_MODE_HEAT in
  _target_temp home_cool_unset = None
  /\ _target_temp (self_of (async_added_to_hass 7.0%float 35.0%float (Some old)
                              home_cool_unset))
     = Some 19.5%float.
Proof.
  split; [reflexivity |].
  exact (proj2 (startup_target_precedence 7.0%float 35.0%float home_cool_unset
                  (Some (mkOldState (Some 19.5%float) None HVAC_MODE_HEAT)))
           (mkOldState (Some 19.5%float) None HVAC_MODE_HEAT) 19.5%float
           eq_refl eq_refl eq_refl).
Defined.

(** X16. A thermostat restarted in the away preset does not know the
    target it had before going away: [__init__] presets the saved target
    to the configured target (or, failing that, to the away temperature),
    the old state only sets the away flag, and the preset NONE then puts
    that value in place. *)
Theorem restart_in_away_then_none :
  forall (hass : Hass) (super_min_temp super_max_temp : float)
         (c : Config) (t0 : Thermostat) (old : OldState),
    __init__ c = Normal t0 ->
    attr_preset_mode old = Some PRESET_AWAY ->
    let s1 := self_of (async_added_to_hass super_min_temp super_max_temp
                         (Some old) t0) in
    let s2 := self_of (async_set_preset_mode hass PRESET_NONE s1) in
    _is_away s1 = true
    /\ _target_temp s2 = Py.or_ (CONF_TARGET_TEMP c) (CONF_AWAY_TEMP c)
    /\ _is_away s2 = false.
Proof.
  intros hass smin smax c t0 old Hinit Hpreset s1 s2.
  assert (H1 : _is_away s1 = true
               /\ _saved_target_temp s1
                  = Py.or_ (CONF_TARGET_TEMP c) (CONF_AWAY_TEMP c)).
  { subst s1. unfold __init__ in Hinit.
    destruct (init_hvac_list c); [| discriminate].
    injection Hinit as <-.
    unfold async_added_to_hass, self_of, mode_is, min_temp, max_temp.
    destruct old as [temp preset st]. cbn in Hpreset. subst.
    crunch; auto. }
  destruct H1 as [Ha Hs]. split; [exact Ha |].
  subst s2. destruct (preset_none_self hass s1 Ha) as [E | E];
    rewrite E; cbn; auto.
Qed.

Lemma restart_in_away_then_none_witness :
  let old := mkOldState (Some 16.0%float) (Some PRESET_AWAY) HVAC_MODE_HEAT in
  let s1 := self_of (async_added_to_hass 7.0%float 35.0%float (Some old) home) in
  let s2 := self_of (async_set_preset_mode (all_off 0) PRESET_NONE s1) in
  __init__ home_config = Normal home
  /\ _is_away s1 = true
  /\ _target_temp s2 = Some 21.0%float.
Proof.
  split; [reflexivity |].
  pose proof (restart_in_away_then_none (all_off 0) 7.0%float 35.0%float
                home_config home
                (mkOldState (Some 16.0%float) (Some PRESET_AWAY) HVAC_MODE_HEAT)
                eq_refl eq_refl) as H.
  split; [exact (proj1 H) | exact (proj1 (proj2 H))].
Defined.

(** ** Construction, continued *)

(** X17. What the constructor offers when it succeeds: COOL, HEAT and
    DRY, in this order, each exactly when its entity is configured, and
    OFF always, last. *)
Theorem init_hvac_modes :
  forall (c : Config) (t : Thermostat),
    __init__ c = Normal t ->
    hvac_modes t
    = (if Py.is_none (CONF_COOLER c) then [] else [HVAC_MODE_COOL])
      ++ (if Py.is_none (CONF_HEATER c) then [] else [HVAC_MODE_HEAT])
      ++ (if Py.is_none (CONF_DRYER c) then [] else [HVAC_MODE_DRY])
      ++ [HVAC_MODE_OFF].
Proof.
  intros c t. unfold __init__, init_hvac_list, remove_if, hvac_modes.
  destruct (CONF_COOLER c), (CONF_HEATER c), (CONF_FAN c), (CONF_DRYER c);
    cbn; intros H; try discriminate H; injection H as <-; reflexivity.
Qed.

Lemma init_hvac_modes_witness :
  __init__ home_config = Normal home
  /\ hvac_modes home
     = [HVAC_MODE_COOL; HVAC_MODE_HEAT; HVAC_MODE_DRY; HVAC_MODE_OFF].
Proof.
  split; [reflexivity |].
  exact (init_hvac_modes home_config home eq_refl).
Defined.

(** X18. On a constructed thermostat the away preset is offered, and the
    preset feature flagged, exactly when the configured away temperature
    is true as a Python value: never without one, and never with an away
    temperature of zero. The target and fan-mode features are always
    flagged. *)
Theorem init_preset_support :
  forall (c : Config) (t : Thermostat),
    __init__ c = Normal t ->
    let offered := Py.opt_float_truthy (CONF_AWAY_TEMP c) in
    preset_modes t
    = (if offered then inl [PRESET_NONE; PRESET_AWAY] else inr PRESET_NONE)
    /\ Z.land (supported_features t) SUPPORT_PRESET_MODE
       = (if offered then SUPPORT_PRESET_MODE else 0%Z)
    /\ Z.land (supported_features t) SUPPORT_FLAGS = SUPPORT_FLAGS
    /\ (CONF_AWAY_TEMP c = None \/ CONF_AWAY_TEMP c = Some 0%float ->
        offered = false)
    /\ preset_mode t = PRESET_NONE.
Proof.
  intros c t Hinit offered. subst offered.
  unfold __init__ in Hinit.
  destruct (init_hvac_list c); [| discriminate].
  injection Hinit as <-.
  unfold preset_modes, supported_features, preset_mode. cbn.
  repeat split.
  - destruct (Py.opt_float_truthy (CONF_AWAY_TEMP c)); reflexivity.
  - destruct (Py.opt_float_truthy (CONF_AWAY_TEMP c)); reflexivity.
  - intros [H | H]; rewrite H; reflexivity.
Qed.

Lemma init_preset_support_witness :
  __init__ home_config = Normal home
  /\ preset_modes home = inl [PRESET_NONE; PRESET_AWAY]
  /\ Z.land (supported_features home) SUPPORT_PRESET_MODE = SUPPORT_PRESET_MODE.
Proof.
  split; [reflexivity |].
  pose proof (init_preset_support home_config home eq_refl) as H.
  split; [exact (proj1 H) | exact (proj1 (proj2 H))].
Defined.

(** ** Fan mode *)

(** X19. [async_set_fan_mode] looks at the lower-cased request but
    stores and compares the request as given. A request that is neither
    "on" nor "auto" in any casing changes nothing. The request "on"
    stores it and turns the fan on. Every other accepted request
    ("auto", but also "ON" or "Auto") is stored as given and, unless a
    device is active, turns the fan off. *)
Theorem set_fan_mode_result :
  forall (hass : Hass) (self : Thermostat) (fan_mode : string),
    let r := async_set_fan_mode hass fan_mode self in
    let calls (s : service) : list event :=
      match fan_entity_id self with
      | Some f => [Call s f]
      | None => []
      end in
    (py_lower fan_mode <> FAN_MODE_ON -> py_lower fan_mode <> FAN_MODE_AUTO ->
     r = (Normal tt, self, []))
    /\ (fan_mode = FAN_MODE_ON ->
        r = (Normal tt, set_fan_mode FAN_MODE_ON self, calls SERVICE_TURN_ON))
    /\ (py_lower fan_mode = FAN_MODE_ON \/ py_lower fan_mode = FAN_MODE_AUTO ->
        fan_mode <> FAN_MODE_ON ->
        r = (Normal tt, set_fan_mode fan_mode self,
             if _is_device_active hass self then [] else calls SERVICE_TURN_OFF)).
Proof.
  intros hass self fan_mode r calls. subst r calls.
  unfold async_set_fan_mode, _async_fan_turn_on, _async_fan_turn_off.
  rewrite is_device_active_any_on.
  split; [| split].
  - intros Hon Hauto.
    apply String.eqb_neq in Hon, Hauto. rewrite Hon, Hauto. reflexivity.
  - intros ->. destruct self. cbn.
    destruct fan_entity_id0; reflexivity.
  - intros Hlow Hne.
    assert (Hacc : String.eqb (py_lower fan_mode) FAN_MODE_ON
                   || String.eqb (py_lower fan_mode) FAN_MODE_AUTO = true).
    { destruct Hlow as [-> | ->]; reflexivity. }
    rewrite Hacc. apply String.eqb_neq in Hne. rewrite Hne.
    destruct self.
    repeat (unfold_m; cbn; rewrite ?is_device_active_any_on; cbn).
    destruct (any_on hass cooler_entity_id0 heater_entity_id0 dryer_entity_id0),
      fan_entity_id0; reflexivity.
Qed.

Lemma set_fan_mode_result_witness :
  py_lower "ON" = FAN_MODE_ON
  /\ async_set_fan_mode (all_off 0) "ON" home
     = (Normal tt, set_fan_mode "ON" home, [Call SERVICE_TURN_OFF "switch.fan"]).
Proof.
  split; [reflexivity |].
  exact (proj2 (proj2 (set_fan_mode_result (all_off 0) home "ON"))
           (or_introl eq_refl) ltac:(discriminate)).
Defined.

(** ** The reported action *)

(** X20. The reported action follows the heater, the cooler and the
    dehumidifier only: with none of them on it is "off" in OFF and "idle"
    in every other mode, also in FAN_ONLY with the fan running; "fan" is
    reported only in FAN_ONLY while one of the three is on. *)
Theorem hvac_action_ignores_fan :
  forall (hass : Hass) (self : Thermostat),
    (_is_device_active hass self = false ->
     hvac_action hass self
     = if mode_is self HVAC_MODE_OFF then CURRENT_HVAC_OFF else CURRENT_HVAC_IDLE)
    /\ (hvac_action hass self = CURRENT_HVAC_FAN ->
        _hvac_mode self = Some HVAC_MODE_FAN_ONLY
        /\ _is_device_active hass self = true).
Proof.
  intros hass self. unfold hvac_action. split.
  - intros ->. destruct (mode_is self HVAC_MODE_OFF); reflexivity.
  - destruct (mode_cases (_hvac_mode self)) as [Hm | [Hm | [Hm | [Hm | [Hm | Hm]]]]];
      unfold mode_is; try rewrite Hm; cbn;
      destruct (_is_device_active hass self); cbn;
      try discriminate; auto.
    rewrite !Hm by (cbn; auto 6). discriminate.
Qed.

Lemma hvac_action_ignores_fan_witness :
  let self := set_hvac_mode (Some HVAC_MODE_FAN_ONLY) home in
  let hass := obey_event (Call SERVICE_TURN_ON "switch.fan") (all_off 0) in
  is_state hass "switch.fan" STATE_ON = true
  /\ _is_device_active hass self = false
  /\ hvac_action hass self = CURRENT_HVAC_IDLE.
Proof.
  split; [reflexivity |].
  split; [reflexivity |].
  exact (proj1 (hvac_action_ignores_fan
                  (obey_event (Call SERVICE_TURN_ON "switch.fan") (all_off 0))
                  (set_hvac_mode (Some HVAC_MODE_FAN_ONLY) home))
           eq_refl).
Defined.

(** ** Sensor updates, continued *)

(** X21. A reading that [float] accepts (and that is neither
    "unavailable" nor "unknown") becomes the current temperature and is
    evaluated at once, unforced. Under any update whatever, a current
    temperature once set is never unset. The read at start-up sets the
    temperature the same way but evaluates nothing: it sends nothing and
    does not activate the thermostat. *)
Theorem sensor_update_result :
  forall (hass : Hass) (py_float : string -> option float) (self : Thermostat),
    (forall new_state v,
        py_float (state new_state) = Some v ->
        state new_state <> STATE_UNAVAILABLE ->
        state new_state <> STATE_UNKNOWN ->
        let r := _async_sensor_changed hass py_float (Some new_state) self in
        r = _async_control_heating hass None false (set_cur_temp (Some v) self)
        /\ _cur_temp (self_of r) = Some v)
    /\ (forall new_state,
           _cur_temp self <> None ->
           _cur_temp (self_of (_async_sensor_changed hass py_float new_state self))
           <> None)
    /\ (let r := _async_startup hass py_float self in
        result_of r = Normal tt
        /\ trace_of r = []
        /\ _active (self_of r) = _active self
        /\ _target_temp (self_of r) = _target_temp self).
Proof.
  intros hass py_float self. split; [| split].
  - intros ns v Hv Hu Hk r. subst r.
    unfold _async_sensor_changed, _async_update_temp. rewrite Hv.
    apply String.eqb_neq in Hu, Hk. rewrite Hu, Hk. cbn [orb].
    assert (E : bind (modify (set_cur_temp (Some v)))
                  (fun _ => _async_control_heating hass None false) self
                = _async_control_heating hass None false
                    (set_cur_temp (Some v) self)).
    { unfold bind, modify.
      destruct (_async_control_heating hass None false (set_cur_temp (Some v) self))
        as [[? ?] ?]. reflexivity. }
    rewrite E. split; [reflexivity |].
    destruct (control_heating_self hass None false (set_cur_temp (Some v) self))
      as [E' | E']; rewrite E'; reflexivity.
  - intros ns Hset.
    unfold _async_sensor_changed, _async_update_temp.
    destruct ns as [ns |]; [| exact Hset].
    destruct (String.eqb (state ns) STATE_UNAVAILABLE
              || String.eqb (state ns) STATE_UNKNOWN); [exact Hset |].
    destruct (py_float (state ns)) as [v |].
    + rewrite self_of_bind_modify.
      destruct (control_heating_self hass None false (set_cur_temp (Some v) self))
        as [E' | E']; rewrite E'; discriminate.
    + rewrite bind_ret_tt.
      destruct (control_heating_self hass None false self) as [E' | E'];
        rewrite E'; exact Hset.
  - unfold _async_startup, _async_update_temp, result_of, trace_of, self_of.
    unfold_m. cbn.
    destruct (states_get hass (sensor_entity_id self)) as [st |]; cbn; auto.
    destruct (negb _); cbn; auto.
    destruct (py_float (state st)); cbn; auto.
Qed.

Lemma sensor_update_result_witness :
  let new_state := mkState "19.5" 0 in
  let r := _async_sensor_changed (all_off 0) float_of_decimal (Some new_state) home in
  float_of_decimal (state new_state) = Some 19.5%float
  /\ _cur_temp (self_of r) = Some 19.5%float.
Proof.
  split; [reflexivity |].
  exact (proj2 (proj1 (sensor_update_result (all_off 0) float_of_decimal home)
                  (mkState "19.5" 0) 19.5%float eq_refl
                  ltac:(discriminate) ltac:(discriminate))).
Defined.

(** ** Reverse cycle, continued *)

Opaque _async_control_heating.

(** X22. Entering COOL honours the reverse-cycle exemption of the
    heater: with "heater" listed in [reverse_cycle] no heater-off
    command is sent (the heater having an entity id of its own); with
    "heater" not listed and a device active, the heater-off command is
    sent. *)
Theorem cool_entry_reverse_cycle :
  forall (hass : Hass) (self : Thermostat) (h : string),
    heater_entity_id self = Some h ->
    cooler_entity_id self <> Some h ->
    fan_entity_id self <> Some h ->
    dryer_entity_id self <> Some h ->
    let tr := trace_of (async_set_hvac_mode hass HVAC_MODE_COOL self) in
    (rc_absent self REVERSE_CYCLE_IS_HEATER = false ->
     ~ In (Call SERVICE_TURN_OFF h) tr)
    /\ (rc_absent self REVERSE_CYCLE_IS_HEATER = true ->
        _is_device_active hass self = true ->
        In (Call SERVICE_TURN_OFF h) tr).
Proof.
  intros hass self h Hh Hk Hf Hd tr. subst tr.
  rewrite is_device_active_any_on. unfold trace_of. unfold_requests.
  destruct self; cbn in Hh, Hk, Hf, Hd |- *. subst.
  split.
  - intros Hrc.
    repeat (unfold_m; cbn; rewrite ?is_device_active_any_on, ?Hrc; cbn;
            try case_cond);
      name_evaluation cool_events;
      rewrite ?in_app_iff; cbn;
      intros HIn; repeat (destruct HIn as [HIn | HIn]);
      try contradiction; try congruence;
      try (specialize (Hev _ HIn eq_refl); cbn in Hev;
           destruct Hev; congruence).
  - intros Hrc Hact.
    repeat (unfold_m; cbn; rewrite ?is_device_active_any_on, ?Hrc, ?Hact; cbn;
            try case_cond);
      name_evaluation cool_events;
      try discriminate; rewrite ?in_app_iff; cbn; auto 10.
Qed.

Transparent _async_control_heating.

Lemma cool_entry_reverse_cycle_witness :
  let self := set_cur_temp (Some 25.0%float) home in
  let hass := heater_on 0 in
  (heater_entity_id self = Some "switch.heater"
   /\ rc_absent self REVERSE_CYCLE_IS_HEATER = true
   /\ _is_device_active hass self = true)
  /\ In (Call SERVICE_TURN_OFF "switch.heater")
        (trace_of (async_set_hvac_mode hass HVAC_MODE_COOL self)).
Proof.
  split.
  - repeat split.
  - apply (proj2 (cool_entry_reverse_cycle (heater_on 0)
                    (set_cur_temp (Some 25.0%float) home) "switch.heater" eq_refl
                    ltac:(discriminate) ltac:(discriminate) ltac:(discriminate)));
      reflexivity.
Defined.

(** X23. The legacy forms of [reverse_cycle]: a list with exactly one
    [True] becomes "heater, cooler" (both exempt, fan and dehumidifier
    not); otherwise a list with exactly one [False] becomes empty, so
    that any entity named beside the [False] loses its exemption;
    every other list is kept as it is. *)
Theorem init_legacy_reverse_cycle :
  forall (c : Config) (t : Thermostat),
    __init__ c = Normal t ->
    let trues := Py.list_count rc_eqb (RcBool true) (CONF_REVERSE_CYCLE c) in
    let falses := Py.list_count rc_eqb (RcBool false) (CONF_REVERSE_CYCLE c) in
    (trues = 1 ->
     rc_absent t REVERSE_CYCLE_IS_HEATER = false
     /\ rc_absent t REVERSE_CYCLE_IS_COOLER = false
     /\ rc_absent t REVERSE_CYCLE_IS_FAN = true
     /\ rc_absent t REVERSE_CYCLE_IS_DRYER = true)
    /\ (trues <> 1 -> falses = 1 ->
        forall x, rc_absent t x = true)
    /\ (trues <> 1 -> falses <> 1 ->
        reverse_cycle t = CONF_REVERSE_CYCLE c).
Proof.
  intros c t Hinit trues falses. subst trues falses.
  unfold __init__ in Hinit.
  destruct (init_hvac_list c); [| discriminate].
  injection Hinit as <-.
  unfold rc_absent. cbn [reverse_cycle].
  split; [| split].
  - intros ->. cbn. repeat split.
  - intros Ht Hf. apply Nat.eqb_neq in Ht. rewrite Ht, Hf. cbn. reflexivity.
  - intros Ht Hf. apply Nat.eqb_neq in Ht, Hf. rewrite Ht, Hf. reflexivity.
Qed.

Lemma init_legacy_reverse_cycle_witness :
  let c := mkConfig "t" (Some "switch.heater") (Some "switch.cooler") "sensor.t"
             (Some "switch.fan") Neutral None Neutral
             [REVERSE_CYCLE_IS_COOLER; RcBool false]
             None None None None 0.3%float 0.3%float None None None None
             FAN_MODE_AUTO "C" in
  (exists t, __init__ c = Normal t)
  /\ rc_absent (configured c) REVERSE_CYCLE_IS_COOLER = true.
Proof.
  intros c. split.
  - eexists. reflexivity.
  - apply (proj1 (proj2 (init_legacy_reverse_cycle c (configured c) eq_refl))).
    + discriminate.
    + reflexivity.
Defined.
